(** * Dataproc serverless job executor: a shallow embedding

    The program verified here is the HTTP-triggered function of
    [functions/data-processing-engines/dataproc-serverless-job-executor/main.py].
    It is glue code between three collaborators (blob storage, a credential
    provider and the Dataproc REST API).  The embedding keeps the shape of the
    Python source:

    - Python values are the JSON fragment of the language ([pyval]);
    - the string built-ins the source calls ([str.replace], [str.split],
      [str.join], [str.startswith], [repr], f-string formatting) are written
      out as functions on [string];
    - exceptions and the effects on the outside world are threaded through a
      small monad [M] that carries the chronological log of effects;
    - the collaborators are the fields of a record [World]. *)

From Stdlib Require Import ZArith List String Ascii Bool Lia.
From Stdlib Require Import DecimalString DecimalZ DecimalPos.
Import ListNotations.

Local Open Scope string_scope.
Local Open Scope Z_scope.

Set Warnings "-register-all".

(* ================================================================== *)
(** * Python values and built-ins *)
(* ================================================================== *)

Module Py.

(** The values that reach the program are decoded JSON documents.  JSON
    numbers with a fraction or an exponent (Python [float]) are left out:
    no branch of the program inspects one. A [dict] is an association list
    in insertion order, as Python prints and serialises it. *)
Inductive pyval : Type :=
| PNone
| PBool (b : bool)
| PInt (n : Z)
| PStr (s : string)
| PList (l : list pyval)
| PDict (d : list (string * pyval)).

(** [type(v).__name__] *)
Definition type_name (v : pyval) : string :=
  match v with
  | PNone => "NoneType"
  | PBool _ => "bool"
  | PInt _ => "int"
  | PStr _ => "str"
  | PList _ => "list"
  | PDict _ => "dict"
  end.

(** The truth test of [if v:]. *)
Definition py_bool (v : pyval) : bool :=
  match v with
  | PNone => false
  | PBool b => b
  | PInt n => negb (n =? 0)
  | PStr s => negb (s =? "")%string
  | PList l => match l with [] => false | _ => true end
  | PDict d => match d with [] => false | _ => true end
  end.

(** [isinstance(v, str)] *)
Definition isinstance_str (v : pyval) : bool :=
  match v with PStr _ => true | _ => false end.

(** ** Strings *)

(** The double quote character, and the one-character string made of it. *)
Definition dquote : ascii := "034"%char.
Definition squote : ascii := "'"%char.
Definition backslash : ascii := "\"%char.

(** [c in s] for a character. *)
Fixpoint has_char (c : ascii) (s : string) : bool :=
  match s with
  | EmptyString => false
  | String a s' => Ascii.eqb a c || has_char c s'
  end.

(** [sub in s] *)
Fixpoint str_in (sub s : string) : bool :=
  prefix sub s ||
  match s with
  | EmptyString => false
  | String _ s' => str_in sub s'
  end.

(** [all(p(c) for c in s)] *)
Fixpoint str_forall (p : ascii -> bool) (s : string) : bool :=
  match s with
  | EmptyString => true
  | String c s' => p c && str_forall p s'
  end.

(** An ASCII decimal digit. *)
Definition is_digit (c : ascii) : bool :=
  let n := nat_of_ascii c in (48 <=? n)%nat && (n <=? 57)%nat.

(** [s.startswith(p)] *)
Definition startswith (s p : string) : bool := prefix p s.

(** [str(n)] for an [int]. *)
Definition str_of_int (n : Z) : string := NilZero.string_of_int (Z.to_int n).

Definition hex_digit (n : nat) : ascii :=
  match n with
  | 0%nat => "0" | 1%nat => "1" | 2%nat => "2" | 3%nat => "3"
  | 4%nat => "4" | 5%nat => "5" | 6%nat => "6" | 7%nat => "7"
  | 8%nat => "8" | 9%nat => "9" | 10%nat => "a" | 11%nat => "b"
  | 12%nat => "c" | 13%nat => "d" | 14%nat => "e" | _ => "f"
  end%char.

(** The quote [repr] chooses: a double quote when the string has a single
    quote and no double quote, a single quote otherwise. *)
Definition repr_quote (s : string) : ascii :=
  if has_char squote s && negb (has_char dquote s) then dquote else squote.

(** How [repr] writes one character inside the quotes [q].  Bytes above
    127 are read as parts of printable characters and kept. *)
Definition repr_char (q c : ascii) : string :=
  let n := nat_of_ascii c in
  if Ascii.eqb c q || Ascii.eqb c backslash then String backslash (String c "")
  else if Ascii.eqb c "009" then "\t"
  else if Ascii.eqb c "010" then "\n"
  else if Ascii.eqb c "013" then "\r"
  else if (n <? 32)%nat || (n =? 127)%nat
       then "\x" ++ String (hex_digit (n / 16)) (String (hex_digit (n mod 16)) "")
  else String c "".

Fixpoint repr_chars (q : ascii) (s : string) : string :=
  match s with
  | EmptyString => ""
  | String c s' => repr_char q c ++ repr_chars q s'
  end.

(** [repr(s)] for a [str]. *)
Definition repr_str (s : string) : string :=
  let q := repr_quote s in
  String q (repr_chars q s ++ String q "").

(** [sep.join(l)] *)
Definition join (sep : string) (l : list string) : string := String.concat sep l.

(** [repr(v)] *)
Fixpoint repr (v : pyval) : string :=
  match v with
  | PNone => "None"
  | PBool true => "True"
  | PBool false => "False"
  | PInt n => str_of_int n
  | PStr s => repr_str s
  | PList l => "[" ++ join ", " (map repr l) ++ "]"
  | PDict d =>
      "{" ++ join ", " (map (fun kv => repr_str (fst kv) ++ ": " ++ repr (snd kv)) d) ++ "}"
  end.

(** [str(v)], which is also what an f-string field [{v}] prints. *)
Definition str (v : pyval) : string :=
  match v with
  | PStr s => s
  | _ => repr v
  end.

(** [s.replace(old, new)] for a non-empty [old]: the occurrences of [old]
    are found from left to right and do not overlap.  [skip] counts the
    characters of an occurrence still to be dropped. *)
Fixpoint replace_from (old new : string) (skip : nat) (s : string) : string :=
  match s with
  | EmptyString => ""
  | String c s' =>
      match skip with
      | S k => replace_from old new k s'
      | O =>
          if prefix old s
          then new ++ replace_from old new (String.length old - 1) s'
          else String c (replace_from old new 0 s')
      end
  end.

Definition replace (s old new : string) : string := replace_from old new 0 s.

(** [s.split(sep)] for a non-empty [sep]; [cur] is the piece being read. *)
Fixpoint split_from (sep : string) (skip : nat) (cur : string) (s : string)
  : list string :=
  match s with
  | EmptyString => [cur]
  | String c s' =>
      match skip with
      | S k => split_from sep k cur s'
      | O =>
          if prefix sep s
          then cur :: split_from sep (String.length sep - 1) "" s'
          else split_from sep 0 (cur ++ String c "") s'
      end
  end.

Definition split (s sep : string) : list string := split_from sep 0 "" s.

(** ** Dictionaries *)

Fixpoint dict_find (d : list (string * pyval)) (key : string) : option pyval :=
  match d with
  | [] => None
  | (k, v) :: d' => if (k =? key)%string then Some v else dict_find d' key
  end.

(** [d.get(key, default)] *)
Definition dict_get (d : list (string * pyval)) (key : string) (default : pyval)
  : pyval :=
  match dict_find d key with
  | Some v => v
  | None => default
  end.

(** [d[key] = v] *)
Fixpoint dict_set (d : list (string * pyval)) (key : string) (v : pyval)
  : list (string * pyval) :=
  match d with
  | [] => [(key, v)]
  | (k, x) :: d' =>
      if (k =? key)%string then (k, v) :: d' else (k, x) :: dict_set d' key v
  end.

(** Reading along a path of keys, for statements about nested payloads. *)
Fixpoint lookup_path (v : pyval) (path : list string) : option pyval :=
  match path with
  | [] => Some v
  | k :: rest =>
      match v with
      | PDict d =>
          match dict_find d k with
          | Some x => lookup_path x rest
          | None => None
          end
      | _ => None
      end
  end.

(** ** Exceptions *)

(** The classes the program names or raises; every other class is
    [OtherError] with its name.  A subclass raised by a library stands as
    the class of the [except] clause it is caught by.  All of them derive
    from [Exception]: the program and its libraries raise no bare
    [BaseException], which [except Exception] would let through. *)
Inductive exc_class : Type :=
| Exception
| AttributeError
| IndexError
| NotFound
| JSONDecodeError
| UnicodeDecodeError
| OtherError (name : string).

Definition class_name (c : exc_class) : string :=
  match c with
  | Exception => "Exception"
  | AttributeError => "AttributeError"
  | IndexError => "IndexError"
  | NotFound => "NotFound"
  | JSONDecodeError => "JSONDecodeError"
  | UnicodeDecodeError => "UnicodeDecodeError"
  | OtherError name => name
  end.

(** An exception object, as far as the program observes it: its class,
    [str(e)] and [repr(e)]. *)
Record exn : Type := Exn {
  exn_class : exc_class;
  exn_str : string;
  exn_repr : string
}.

(** An exception built from one message, [C(msg)]: [BaseException] prints
    it as the message and represents it as [C(repr(msg))]. *)
Definition exn_of_message (c : exc_class) (msg : string) : exn :=
  {| exn_class := c;
     exn_str := msg;
     exn_repr := class_name c ++ "(" ++ repr_str msg ++ ")" |}.

(** What the interpreter raises for [obj.attr] on a value without [attr]. *)
Definition no_attribute (obj : pyval) (attr : string) : exn :=
  exn_of_message AttributeError
    ("'" ++ type_name obj ++ "' object has no attribute '" ++ attr ++ "'").

Inductive result (A : Type) : Type :=
| Ok (a : A)
| Raise (e : exn).
Arguments Ok {A} a.
Arguments Raise {A} e.

(** [obj.get(key, default)] *)
Definition get (obj : pyval) (key : string) (default : pyval) : result pyval :=
  match obj with
  | PDict d => Ok (dict_get d key default)
  | _ => Raise (no_attribute obj "get")
  end.

(** [obj.startswith(p)] *)
Definition call_startswith (obj : pyval) (p : string) : result bool :=
  match obj with
  | PStr s => Ok (startswith s p)
  | _ => Raise (no_attribute obj "startswith")
  end.

(** [int(round(num / den))] for [den > 0]: Python rounds a float to the
    nearest integer, a tie to the even one. *)
Definition round_half_even (num den : Z) : Z :=
  let q := num / den in
  let r := num mod den in
  if 2 * r <? den then q
  else if den <? 2 * r then q + 1
  else if Z.even q then q else q + 1.

End Py.

(* ================================================================== *)
(** * Effects: exceptions and the log of what the program does *)
(* ================================================================== *)

Module Effects.
Import Py.

(** What a run does to the outside world, in the order it does it. *)
Inductive event : Type :=
| Printed (line : string)
| BlobDownload (bucket object_name : string)
| CredentialsRefresh
| HttpPost (url : string) (json : pyval) (headers : pyval)
| HttpGet (url : string) (headers : pyval).

(** A computation extends the log and returns a value or raises. *)
Definition M (A : Type) : Type := list event -> list event * result A.

Definition ret {A} (a : A) : M A := fun log => (log, Ok a).

Definition raise {A} (e : exn) : M A := fun log => (log, Raise e).

Definition bind {A B} (m : M A) (k : A -> M B) : M B :=
  fun log =>
    match m log with
    | (log', Ok a) => k a log'
    | (log', Raise e) => (log', Raise e)
    end.

(** A pure operation that may raise. *)
Definition lift {A} (r : result A) : M A := fun log => (log, r).

(** An effect: it is logged, then its outcome is the collaborator's. *)
Definition perform {A} (ev : event) (r : result A) : M A :=
  fun log => ((log ++ [ev])%list, r).

(** [print(line)] for a line that the standard output takes whatever the
    request was; [print_raw] of [Main] is the print of the one line that
    it can refuse. *)
Definition print (line : string) : M unit := perform (Printed line) (Ok tt).

(** [try: body  except <classes> as e: handler e] *)
Definition try_except {A} (body : M A) (catches : exn -> bool)
  (handler : exn -> M A) : M A :=
  fun log =>
    match body log with
    | (log', Ok a) => (log', Ok a)
    | (log', Raise e) => if catches e then handler e log' else (log', Raise e)
    end.

Declare Scope py_scope.
Delimit Scope py_scope with py.
Notation "x <- m ;; k" := (bind m (fun x => k))
  (at level 61, m at next level, right associativity) : py_scope.
Notation "m ;; k" := (bind m (fun _ => k))
  (at level 61, right associativity) : py_scope.

End Effects.

(* ================================================================== *)
(** * The collaborators *)
(* ================================================================== *)

Module Env.
Import Py.

(** A [requests.Response], as far as the program reads it. *)
Record Response : Type := {
  status_code : Z;
  text : string;
  json : result pyval          (* response.json() *)
}.

(** The inbound Flask request: whether its content type is JSON, and its
    body. *)
Record Request : Type := {
  is_json : bool;
  get_data : string
}.

(** Everything outside the module's own code. *)
Record World : Type := {
  (* os.environ.get('K_SERVICE') *)
  K_SERVICE : option string;
  (* storage_client.bucket(b).blob(o).download_as_bytes() *)
  blob_download_as_bytes : string -> string -> result string;
  (* bytes.decode('utf-8') *)
  bytes_decode : string -> result string;
  (* json.loads *)
  json_loads : string -> result pyval;
  (* credentials.refresh(Request()), then credentials.token *)
  credentials_refresh : result string;
  (* datetime.datetime.now(), in microseconds since the epoch *)
  now_microseconds : Z;
  (* requests.post(url, json=..., headers=...) *)
  requests_post : string -> pyval -> pyval -> result Response;
  (* requests.get(url, headers=...) *)
  requests_get : string -> pyval -> result Response;
  (* sys.stdout.write of a line that holds text as the caller sent it *)
  stdout_write : string -> result unit
}.

End Env.

(* ================================================================== *)
(** * The program *)
(* ================================================================== *)

Module Main.
Import Py Effects Env.
Local Open Scope py_scope.

Section Program.

Variable w : World.

(** ** Module-level state *)

(** [function_name = os.environ.get('K_SERVICE')] *)
Definition function_name : pyval :=
  match K_SERVICE w with
  | Some s => PStr s
  | None => PNone
  end.

(** ** Calls to the collaborators *)

(** [storage_client.bucket(b).blob(o).download_as_bytes()]: building the
    two handles makes no request, the download is the effect. *)
Definition download_as_bytes (bucket_name object_name : string) : M string :=
  perform (BlobDownload bucket_name object_name)
          (blob_download_as_bytes w bucket_name object_name).

Definition refresh_token : M string :=
  perform CredentialsRefresh (credentials_refresh w).

Definition post (url : string) (json headers : pyval) : M Response :=
  perform (HttpPost url json headers) (requests_post w url json headers).

Definition http_get (url : string) (headers : pyval) : M Response :=
  perform (HttpGet url headers) (requests_get w url headers).

(** The classes of [except ValueError]: the two decoding errors derive
    from it. *)
Definition is_value_error (e : exn) : bool :=
  match exn_class e with
  | JSONDecodeError | UnicodeDecodeError => true
  | OtherError name => (name =? "ValueError")%string
  | _ => false
  end.

(** [request.get_json(silent=True)]: [None] when the content type is not
    JSON; otherwise the parsed body, with [silent] turning a [ValueError]
    of the parser into [None].  Any other exception of the parser (a
    [RecursionError] on a deeply nested body, say) is raised to the
    caller. *)
Definition get_json_silent (request : Request) : result pyval :=
  if is_json request then
    match json_loads w (get_data request) with
    | Ok v => Ok v
    | Raise e => if is_value_error e then Ok PNone else Raise e
    end
  else Ok PNone.

(** [print(line)] for a line that holds text as the caller sent it.
    Standard output encodes UTF-8, as it does where the function is
    deployed: the write raises [UnicodeEncodeError] when the text holds a
    lone surrogate, and then nothing is printed.  Every other line the
    program prints is fixed text, a number, text that [repr] has escaped
    (a lone surrogate is written as its escape), or text the platform's
    services answered: [print] writes those. *)
Definition print_raw (line : string) : M unit :=
  fun log =>
    match stdout_write w line with
    | Ok _ => ((log ++ [Printed line])%list, Ok tt)
    | Raise e => (log, Raise e)
    end.

(** [print("event:" + str(request_json))]: [str] of a body that is a JSON
    string is the string itself, as sent; [str] of any other body writes
    the strings inside it through [repr]. *)
Definition print_event (request_json : pyval) : M unit :=
  let line := "event:" ++ str request_json in
  if isinstance_str request_json then print_raw line else print line.

(** [str(response)] *)
Definition str_response (response : Response) : string :=
  "<Response [" ++ str_of_int (status_code response) ++ "]>".

(** [parts[0]] *)
Definition first_part (parts : list string) : result string :=
  match parts with
  | p :: _ => Ok p
  | [] => Raise (exn_of_message IndexError "list index out of range")
  end.

(** ** [extract_params] *)

(** The classes of [except (NotFound, JSONDecodeError, UnicodeDecodeError)]. *)
Definition is_load_failure (e : exn) : bool :=
  match exn_class e with
  | NotFound | JSONDecodeError | UnicodeDecodeError => true
  | _ => false
  end.

Definition extract_params (bucket_name job_name function_name : pyval)
  : M pyval :=
  let json_file_path :=
    "gs://" ++ str bucket_name ++ "/" ++ str function_name ++ "/"
            ++ str job_name ++ ".json" in
  let parts := split (replace json_file_path "gs://" "") "/" in
  bucket_name <- lift (first_part parts) ;;
  let object_name := join "/" (tl parts) in
  try_except
    (json_data <- download_as_bytes bucket_name object_name ;;
     decoded <- lift (bytes_decode w json_data) ;;
     params <- lift (json_loads w decoded) ;;
     ret params)
    is_load_failure
    (fun e =>
       print ("Error reading JSON file: " ++ exn_str e) ;;
       ret PNone).

(** ** [create_batch_job] *)

(** [int(round(curr_dt.timestamp()))] for a clock reading [curr_dt] in whole
    microseconds.  [timestamp()] is the reading in seconds as a double.
    From the epoch to below 2^33 seconds (year 2242) the double is less
    than a microsecond from the reading, so it lies on the same side of
    every half second as the reading, and rounding it is rounding the exact
    quotient, as written here.  From 2^34 seconds on the double can fall
    on a half second that the reading is not on, and the two differ: what
    is proved of the arithmetic of the rounding is proved for readings
    below 2^33 seconds. *)
Definition int_round_timestamp (curr_dt : Z) : Z :=
  round_half_even curr_dt 1000000.

Definition create_batch_job
  (workflow_name job_name query_variables workflow_properties
   extracted_params : pyval) : M pyval :=
  dataproc_serverless_project_id <-
    lift (get extracted_params "dataproc_serverless_project_id" PNone) ;;
  dataproc_serverless_region <-
    lift (get extracted_params "dataproc_serverless_region" PNone) ;;
  jar_file_location <- lift (get extracted_params "jar_file_location" PNone) ;;
  spark_history_server_cluster <-
    lift (get extracted_params "spark_history_server_cluster" PNone) ;;
  spark_app_main_class <-
    lift (get extracted_params "spark_app_main_class" PNone) ;;
  spark_args <- lift (get extracted_params "spark_args" PNone) ;;
  dataproc_serverless_runtime_version <-
    lift (get extracted_params "dataproc_serverless_runtime_version" PNone) ;;
  dataproc_service_account <-
    lift (get extracted_params "dataproc_service_account" PNone) ;;
  spark_app_properties <-
    lift (get extracted_params "spark_app_properties" PNone) ;;
  subnetwork <- lift (get extracted_params "subnetwork" PNone) ;;

  spark_app_properties <-
    (if isinstance_str spark_app_properties then
       lift (json_loads w (str spark_app_properties))
     else ret spark_app_properties) ;;

  token <- refresh_token ;;
  let headers := PDict [("Authorization", PStr ("Bearer " ++ token))] in

  let curr_dt := now_microseconds w in
  let timestamp := int_round_timestamp curr_dt in

  let environment_config :=
    [("execution_config",
      PDict [("service_account", dataproc_service_account);
             ("subnetwork_uri",
              PStr ("projects/" ++ str dataproc_serverless_project_id
                    ++ "/" ++ str subnetwork))])] in
  let params :=
    [("spark_batch",
      PDict [("jar_file_uris", PList [jar_file_location]);
             ("main_class", spark_app_main_class);
             ("args", spark_args)]);
     ("runtime_config",
      PDict [("version", dataproc_serverless_runtime_version);
             ("properties", spark_app_properties)]);
     ("environment_config", PDict environment_config)] in

  (* params["environment_config"] is the object environment_config: the
     assignment below is seen through params *)
  let params :=
    if py_bool spark_history_server_cluster then
      let spark_history_server_cluster_path :=
        "projects/" ++ str dataproc_serverless_project_id
        ++ "/regions/" ++ str dataproc_serverless_region
        ++ "/clusters/" ++ str spark_history_server_cluster in
      dict_set params "environment_config"
        (PDict (dict_set environment_config "peripherals_config"
           (PDict [("spark_history_server_config",
                    PDict [("dataproc_cluster",
                            PStr spark_history_server_cluster_path)])])))
    else params in

  print (str (PDict params)) ;;

  let batch_id := "aef-" ++ str_of_int timestamp in

  let url :=
    "https://dataproc.googleapis.com/v1/projects/"
    ++ str dataproc_serverless_project_id ++ "/"
    ++ "locations/" ++ str dataproc_serverless_region
    ++ "/batches?batchId=" ++ batch_id in

  response <- post url (PDict params) headers ;;

  if status_code response =? 200 then
    print ("response::" ++ str_response response) ;;
    ret (PStr batch_id)
  else
    let error_message :=
      "Dataproc API CREATE request failed. Status code:"
      ++ str_of_int (status_code response) in
    print error_message ;;
    print (text response) ;;
    raise (exn_of_message Exception error_message).

(** ** [get_job_status] *)

Definition get_job_status (job_id extracted_params : pyval) : M pyval :=
  dataproc_serverless_project_id <-
    lift (get extracted_params "dataproc_serverless_project_id" PNone) ;;
  dataproc_serverless_region <-
    lift (get extracted_params "dataproc_serverless_region" PNone) ;;

  token <- refresh_token ;;
  let headers := PDict [("Authorization", PStr ("Bearer " ++ token))] in

  let url :=
    "https://dataproc.googleapis.com/v1/projects/"
    ++ str dataproc_serverless_project_id ++ "/"
    ++ "locations/" ++ str dataproc_serverless_region
    ++ "/batches/" ++ str job_id in
  print ("Url::::" ++ url) ;;

  response <- http_get url headers ;;

  if status_code response =? 200 then
    print ("response::" ++ str_response response) ;;
    body <- lift (json response) ;;
    lift (get body "state" PNone)
  else
    let error_message :=
      "Dataproc API GET request failed. Status code:"
      ++ str_of_int (status_code response) in
    print error_message ;;
    print (text response) ;;
    raise (exn_of_message Exception error_message).

(** ** [execute_job_or_get_status] *)

Definition execute_job_or_get_status
  (job_id workflow_name job_name query_variables workflow_properties
   extracted_params : pyval) : M pyval :=
  if py_bool job_id then
    get_job_status job_id extracted_params
  else
    create_batch_job workflow_name job_name query_variables
                     workflow_properties extracted_params.

(** ** [main] *)

(** The body of the [try] block. *)
Definition main_try (request_json : pyval) : M pyval :=
  workflow_properties <- lift (get request_json "workflow_properties" PNone) ;;
  workflow_name <- lift (get request_json "workflow_name" PNone) ;;
  job_name <- lift (get request_json "job_name" PNone) ;;
  query_variables <- lift (get request_json "query_variables" PNone) ;;
  job_id <- lift (get request_json "job_id" PNone) ;;

  properties <- lift (get request_json "workflow_properties" (PDict [])) ;;
  jobs_definitions_bucket <-
    lift (get properties "jobs_definitions_bucket" PNone) ;;
  extracted_params <-
    (if py_bool jobs_definitions_bucket then
       extract_params jobs_definitions_bucket job_name function_name
     else ret (PDict [])) ;;

  status_or_job_id <-
    execute_job_or_get_status job_id workflow_name job_name query_variables
                              workflow_properties extracted_params ;;

  running <- lift (call_startswith status_or_job_id "aef-") ;;
  (if running : bool then
     print ("Running Job, track it with Job ID: " ++ str status_or_job_id)
   else
     print ("Call finished with status: " ++ str status_or_job_id)) ;;

  ret status_or_job_id.

(** The handler of [except Exception as error]. *)
Definition error_response (error : exn) : pyval :=
  PDict [("error", PStr (class_name (exn_class error)));
         ("message", PStr (exn_repr error))].

Definition main (request : Request) : M pyval :=
  request_json <- lift (get_json_silent request) ;;
  print_event request_json ;;
  try_except (main_try request_json)
    (fun _ => true)
    (fun error =>
       let err_message := "Exception: " ++ exn_repr error in
       print err_message ;;
       ret (error_response error)).

End Program.

End Main.

(* ================================================================== *)
(** * Notions used in the statements *)
(* ================================================================== *)

Module Notions.
Import Py Effects Env Main.

(** The characters [repr] copies unchanged between single quotes. *)
Definition plain (c : ascii) : bool :=
  let n := nat_of_ascii c in
  (32 <=? n)%nat && (n <? 127)%nat
  && negb (Ascii.eqb c squote) && negb (Ascii.eqb c dquote)
  && negb (Ascii.eqb c backslash).

(** A computation is [framed] when it only appends to the log and its
    outcome does not depend on what the log already holds. *)
Definition framed {A} (m : M A) : Prop :=
  forall log, m log = ((log ++ fst (m []))%list, snd (m [])).

(** The events of a run that are calls to the Dataproc REST API. *)
Definition is_post (ev : event) : bool :=
  match ev with HttpPost _ _ _ => true | _ => false end.

Definition is_get (ev : event) : bool :=
  match ev with HttpGet _ _ => true | _ => false end.

Definition is_http (ev : event) : bool := is_post ev || is_get ev.

(** A computation [avoids] a kind of event when it only appends to the log
    and appends no event of the kind. *)
Definition avoids (kind : event -> bool) {A} (m : M A) : Prop :=
  forall log, exists evs,
    fst (m log) = (log ++ evs)%list /\ forallb (fun ev => negb (kind ev)) evs = true.

(** What [main] returns, given how the dispatch call ended. *)
Definition main_outcome (r : result pyval) : pyval :=
  match r with
  | Raise e => error_response e
  | Ok v =>
      match call_startswith v "aef-" with
      | Ok _ => v
      | Raise e => error_response e
      end
  end.

(** A parameter is non-empty when the truth test of [if v:] accepts it: for
    a string, when it is not the empty string; an absent parameter reads
    as [None], which is empty. *)
Definition non_empty (v : pyval) : Prop := py_bool v = true.

(** The wall-clock second a reading of the clock falls in. *)
Definition wall_clock_second (w : World) : Z := now_microseconds w / 1000000.

(** [repr] of the exception a failed REST call raises: the verb is
    [CREATE] or [GET]. *)
Definition failure_repr (verb : string) (code : Z) : string :=
  "Exception('Dataproc API " ++ verb ++ " request failed. Status code:"
  ++ str_of_int code ++ "')".

End Notions.

(* ================================================================== *)
(** * Sample worlds and requests *)
(* ================================================================== *)

Module Scenarios.
Import Py Effects Env Main.

(** [json.dumps(v)] for documents whose strings hold no character that
    JSON escapes: the sample worlds parse the texts it writes. *)
Definition quoted (s : string) : string :=
  String dquote (s ++ String dquote "").

Fixpoint dumps (v : pyval) : string :=
  match v with
  | PNone => "null"
  | PBool true => "true"
  | PBool false => "false"
  | PInt n => str_of_int n
  | PStr s => quoted s
  | PList l => "[" ++ join ", " (map dumps l) ++ "]"
  | PDict d =>
      "{" ++ join ", " (map (fun kv => quoted (fst kv) ++ ": " ++ dumps (snd kv)) d)
          ++ "}"
  end.

(** The Spark properties of the sample job, as the JSON text of an object
    with the one key [k]. *)
Definition properties : pyval := PDict [("k", PStr "v")].
Definition properties_text : string := dumps properties.

(** A job definition as the blob store holds it, decoded. *)
Definition job_parameters : list (string * pyval) :=
  [("dataproc_serverless_project_id", PStr "acme-data");
   ("dataproc_serverless_region", PStr "us-central1");
   ("jar_file_location", PStr "gs://acme-jars/etl.jar");
   ("spark_history_server_cluster", PStr "history");
   ("spark_app_main_class", PStr "com.acme.Etl");
   ("spark_args", PList [PStr "--date"; PStr "today"]);
   ("dataproc_serverless_runtime_version", PStr "2.2");
   ("dataproc_service_account", PStr "etl@acme-data.iam");
   ("spark_app_properties", PStr properties_text);
   ("subnetwork", PStr "regions/us-central1/subnetworks/default")].

Definition job_definition : pyval := PDict job_parameters.

(** The inbound bodies, decoded. *)
Definition creation_request : pyval :=
  PDict [("workflow_name", PStr "nightly");
         ("job_name", PStr "etl");
         ("workflow_properties",
          PDict [("jobs_definitions_bucket", PStr "acme-jobs")])].

Definition status_fields (job_id : pyval) : list (string * pyval) :=
  [("workflow_name", PStr "nightly");
   ("job_name", PStr "etl");
   ("job_id", job_id);
   ("workflow_properties",
    PDict [("jobs_definitions_bucket", PStr "acme-jobs")])].

Definition status_request (job_id : pyval) : pyval :=
  PDict (status_fields job_id).

(** Their texts. *)
Definition creation_body : string := dumps creation_request.
Definition status_body : string :=
  dumps (status_request (PStr "aef-1700000000")).
Definition empty_job_id_body : string := dumps (status_request (PStr "")).

Definition decode_error : exn :=
  exn_of_message JSONDecodeError "Expecting value: line 1 column 1 (char 0)".

(** [json.loads] of the sample worlds: it parses the texts of the documents
    above and rejects every other text. *)
Definition documents : list pyval :=
  [job_definition; properties; creation_request;
   status_request (PStr "aef-1700000000"); status_request (PStr "")].

Definition sample_loads (s : string) : result pyval :=
  match find (fun v => (dumps v =? s)%string) documents with
  | Some v => Ok v
  | None => Raise decode_error
  end.

Definition not_found : exn :=
  {| exn_class := NotFound;
     exn_str := "404 GET https://storage.googleapis.com/: No such object";
     exn_repr := "NotFound('No such object')" |}.

(** A bucket that holds the job definition of job [etl] for the function
    [executor]. *)
Definition sample_blobs (bucket_name object_name : string) : result string :=
  if (bucket_name =? "acme-jobs")%string
     && (object_name =? "executor/etl.json")%string
  then Ok (dumps job_definition)
  else Raise not_found.

Definition empty_bucket (bucket_name object_name : string) : result string :=
  Raise not_found.

(** Buckets whose object is there but is not a JSON document, or not
    UTF-8 text. *)
Definition garbled_bucket (bucket_name object_name : string) : result string :=
  Ok "job: etl".

Definition binary_bucket (bucket_name object_name : string) : result string :=
  Ok (String "255" (dumps job_definition)).

Definition response (code : Z) (body : string) (decoded : pyval) : Response :=
  {| status_code := code; text := body; json := Ok decoded |}.

Definition unicode_error : exn :=
  {| exn_class := UnicodeDecodeError;
     exn_str :=
       "'utf-8' codec can't decode byte 0xff in position 0: invalid start byte";
     exn_repr :=
       "UnicodeDecodeError('utf-8', b'\xff', 0, 1, 'invalid start byte')" |}.

(** Blobs whose content is not UTF-8 start with the byte 255. *)
Definition sample_decode (data : string) : result string :=
  match data with
  | String "255" _ => Raise unicode_error
  | _ => Ok data
  end.

Definition world (blobs : string -> string -> result string) (clock : Z)
  (posted fetched : Response) : World :=
  {| K_SERVICE := Some "executor";
     blob_download_as_bytes := blobs;
     bytes_decode := sample_decode;
     json_loads := sample_loads;
     credentials_refresh := Ok "ya29.token";
     now_microseconds := clock;
     requests_post := fun _ _ _ => Ok posted;
     requests_get := fun _ _ => Ok fetched;
     stdout_write := fun _ => Ok tt |}.

Definition accepted : Response := response 200 "{}" (PDict []).
Definition running : Response :=
  response 200 (dumps (PDict [("state", PStr "RUNNING")]))
    (PDict [("state", PStr "RUNNING")]).
Definition rejected : Response :=
  response 404 "batch quota exhausted" (PDict []).

(** Two clock readings inside the unix second 1700000000. *)
Definition early_clock : Z := 1700000000200000.
Definition late_clock : Z := 1700000000700000.

Definition happy_world : World :=
  world sample_blobs early_clock accepted running.
Definition late_world : World :=
  world sample_blobs late_clock accepted running.
Definition failing_api_world : World :=
  world sample_blobs early_clock rejected rejected.
Definition missing_blob_world : World :=
  world empty_bucket early_clock accepted running.
Definition garbled_blob_world : World :=
  world garbled_bucket early_clock accepted running.
Definition binary_blob_world : World :=
  world binary_bucket early_clock accepted running.

(** A reading in the second before, which rounds to 1700000000 too. *)
Definition previous_clock : Z := 1699999999700000.
Definition previous_world : World :=
  world sample_blobs previous_clock accepted running.

Definition request_of (body : string) : Request :=
  {| is_json := true; get_data := body |}.

(** What the creation call of [happy_world] posts for [job_definition]. *)
Definition happy_url : string :=
  "https://dataproc.googleapis.com/v1/projects/acme-data/locations/us-central1/batches?batchId=aef-1700000000".

Definition happy_payload : pyval :=
  PDict
    [("spark_batch",
      PDict [("jar_file_uris", PList [PStr "gs://acme-jars/etl.jar"]);
             ("main_class", PStr "com.acme.Etl");
             ("args", PList [PStr "--date"; PStr "today"])]);
     ("runtime_config",
      PDict [("version", PStr "2.2");
             ("properties", PDict [("k", PStr "v")])]);
     ("environment_config",
      PDict [("execution_config",
              PDict [("service_account", PStr "etl@acme-data.iam");
                     ("subnetwork_uri",
                      PStr "projects/acme-data/regions/us-central1/subnetworks/default")]);
             ("peripherals_config",
              PDict [("spark_history_server_config",
                      PDict [("dataproc_cluster",
                              PStr "projects/acme-data/regions/us-central1/clusters/history")])])])].

Definition happy_headers : pyval :=
  PDict [("Authorization", PStr "Bearer ya29.token")].

Definition late_url : string :=
  "https://dataproc.googleapis.com/v1/projects/acme-data/locations/us-central1/batches?batchId=aef-1700000001".

(** What the status lookup of job [aef-1700000000] fetches. *)
Definition status_url : string :=
  "https://dataproc.googleapis.com/v1/projects/acme-data/locations/us-central1/batches/aef-1700000000".

End Scenarios.

(* ================================================================== *)
(** * Measures on the log of a run *)
(* ================================================================== *)

Module Measures.
Import Py Effects Env Main Notions.

(** The other kinds of event. *)
Definition is_print (ev : event) : bool :=
  match ev with Printed _ => true | _ => false end.

Definition is_download (ev : event) : bool :=
  match ev with BlobDownload _ _ => true | _ => false end.

Definition is_refresh (ev : event) : bool :=
  match ev with CredentialsRefresh => true | _ => false end.

(** How many events of a kind a log holds. *)
Definition count (kind : event -> bool) (log : list event) : nat :=
  List.length (filter kind log).

(** The log of a call to the REST API: nothing when the call fails before
    the credentials are refreshed, the refresh alone when the refresh
    fails, else the refresh, one print, the one HTTP call and prints. *)
Definition call_shape (run : list event) : Prop :=
  run = [] \/ run = [CredentialsRefresh] \/
  exists line call rest,
    run = CredentialsRefresh :: Printed line :: call :: rest /\
    is_http call = true /\ forallb is_print rest = true.

(** The log of the parameter phase: nothing, or one download and
    prints. *)
Definition load_shape (pre : list event) : Prop :=
  pre = [] \/
  exists bucket key rest,
    pre = BlobDownload bucket key :: rest /\ forallb is_print rest = true.

(** [json.loads(blob.download_as_bytes().decode('utf-8'))] *)
Definition load_blob (w : World) (bucket key : string) : result pyval :=
  match blob_download_as_bytes w bucket key with
  | Ok data =>
      match bytes_decode w data with
      | Ok text => json_loads w text
      | Raise e => Raise e
      end
  | Raise e => Raise e
  end.

(** The bucket and the object [extract_params] asks the blob store for:
    [parts[0]] and ["/".join(parts[1:])] of the stripped path. *)
Definition blob_address (bucket_name function_name job_name : pyval)
  : string * string :=
  let json_file_path :=
    "gs://" ++ str bucket_name ++ "/" ++ str function_name ++ "/"
            ++ str job_name ++ ".json" in
  let parts := split (replace json_file_path "gs://" "") "/" in
  (hd "" parts, join "/" (tl parts)).

(** The readings of the clock, in microseconds, from the epoch to below
    2^33 seconds: there a double is less than a microsecond from the
    reading it stands for, so [curr_dt.timestamp()] lies on the same side
    of every half second as the reading and [int_round_timestamp] is what
    the source computes. *)
Definition within_double_precision (curr_dt : Z) : Prop :=
  0 <= curr_dt < 8589934592000000.

(** The headers an HTTP call carries. *)
Definition headers_of (ev : event) : option pyval :=
  match ev with
  | HttpPost _ _ headers => Some headers
  | HttpGet _ headers => Some headers
  | _ => None
  end.

(** [{"Authorization": f"Bearer {token}"}] *)
Definition bearer (token : string) : pyval :=
  PDict [("Authorization", PStr ("Bearer " ++ token))].

(** What a call prints once the REST API has answered, or failed to: the
    verb is [CREATE] or [GET]. *)
Definition after_answer (verb : string) (answer : result Response)
  : list event :=
  match answer with
  | Ok response =>
      if status_code response =? 200
      then [Printed ("response::" ++ str_response response)]
      else [Printed ("Dataproc API " ++ verb ++ " request failed. Status code:"
                     ++ str_of_int (status_code response));
            Printed (text response)]
  | Raise _ => []
  end.

(** The line [main] prints for the string the dispatch returned. *)
Definition announcement (s : string) : string :=
  (if startswith s "aef-"
   then "Running Job, track it with Job ID: "
   else "Call finished with status: ") ++ s.

End Measures.

(* ================================================================== *)
(** * Further sample worlds and requests *)
(* ================================================================== *)

Module MoreScenarios.
Import Py Effects Env Main Scenarios.

(** A blob store that refuses the caller: not one of the swallowed
    failures. *)
Definition forbidden : exn :=
  {| exn_class := OtherError "Forbidden";
     exn_str := "403 GET https://storage.googleapis.com/: access denied";
     exn_repr := "Forbidden('access denied')" |}.

Definition locked_bucket (bucket_name object_name : string) : result string :=
  Raise forbidden.

Definition locked_blob_world : World :=
  world locked_bucket early_clock accepted running.

(** A status answer without a [state]. *)
Definition stateless_world : World :=
  world sample_blobs early_clock accepted accepted.

(** Credentials that cannot be refreshed. *)
Definition refresh_error : exn :=
  {| exn_class := OtherError "RefreshError";
     exn_str := "invalid_grant";
     exn_repr := "RefreshError('invalid_grant')" |}.

Definition expired_world : World :=
  {| K_SERVICE := Some "executor";
     blob_download_as_bytes := sample_blobs;
     bytes_decode := sample_decode;
     json_loads := sample_loads;
     credentials_refresh := Raise refresh_error;
     now_microseconds := early_clock;
     requests_post := fun _ _ _ => Ok accepted;
     requests_get := fun _ _ => Ok running;
     stdout_write := fun _ => Ok tt |}.

(** An API that cannot be reached. *)
Definition connection_error : exn :=
  {| exn_class := OtherError "ConnectionError";
     exn_str := "Max retries exceeded";
     exn_repr := "ConnectionError('Max retries exceeded')" |}.

Definition offline_world : World :=
  {| K_SERVICE := Some "executor";
     blob_download_as_bytes := sample_blobs;
     bytes_decode := sample_decode;
     json_loads := sample_loads;
     credentials_refresh := Ok "ya29.token";
     now_microseconds := early_clock;
     requests_post := fun _ _ _ => Raise connection_error;
     requests_get := fun _ _ => Raise connection_error;
     stdout_write := fun _ => Ok tt |}.

(** Further inbound bodies: the creation request with other values in
    the fields the program does not use, a request without a bucket, a
    body that is a list, and a request whose [workflow_properties] is
    null. *)
Definition relabelled_request : pyval :=
  PDict [("workflow_name", PStr "weekly");
         ("job_name", PStr "etl");
         ("query_variables", PDict [("day", PStr "monday")]);
         ("workflow_properties",
          PDict [("jobs_definitions_bucket", PStr "acme-jobs")])].

Definition bucketless_request : pyval :=
  PDict [("workflow_name", PStr "nightly"); ("job_name", PStr "etl")].

Definition list_request : pyval := PList [PStr "etl"].

Definition null_properties_request : pyval :=
  PDict [("job_name", PStr "etl"); ("workflow_properties", PNone)].

(** A job definition that is a JSON list, and one whose Spark properties
    are not JSON. *)
Definition list_definition : pyval := PList [PStr "com.acme.Etl"].

Definition broken_definition : pyval :=
  PDict [("dataproc_serverless_project_id", PStr "acme-data");
         ("spark_app_properties", PStr "k=v")].

Definition further_documents : list pyval :=
  [relabelled_request; bucketless_request; list_request;
   null_properties_request; list_definition; broken_definition].

Definition further_loads (s : string) : result pyval :=
  match find (fun v => (dumps v =? s)%string) further_documents with
  | Some v => Ok v
  | None => sample_loads s
  end.

Definition list_bucket (bucket_name object_name : string) : result string :=
  Ok (dumps list_definition).

Definition broken_bucket (bucket_name object_name : string) : result string :=
  Ok (dumps broken_definition).

Definition further_world (blobs : string -> string -> result string) : World :=
  {| K_SERVICE := Some "executor";
     blob_download_as_bytes := blobs;
     bytes_decode := sample_decode;
     json_loads := further_loads;
     credentials_refresh := Ok "ya29.token";
     now_microseconds := early_clock;
     requests_post := fun _ _ _ => Ok accepted;
     requests_get := fun _ _ => Ok running;
     stdout_write := fun _ => Ok tt |}.

(** A status answer whose [state] starts like a batch id. *)
Definition odd_state : Response :=
  response 200 (dumps (PDict [("state", PStr "aef-DONE")]))
    (PDict [("state", PStr "aef-DONE")]).

Definition odd_state_world : World :=
  world sample_blobs early_clock accepted odd_state.






(** A body that is a JSON string with a lone surrogate, written with the
    escape [\ud800]: the parser returns the string, here as the three
    bytes that stand for the surrogate, and a standard output that
    encodes strictly refuses every line that holds them. *)
Definition lone_surrogate : string :=
  String "237" (String "160" (String "128" "")).

Definition surrogate_body : string := quoted "\ud800".

Definition encode_error : exn :=
  {| exn_class := OtherError "UnicodeEncodeError";
     exn_str :=
       "'utf-8' codec can't encode character '\ud800' in position 6: surrogates not allowed";
     exn_repr :=
       "UnicodeEncodeError('utf-8', 'event:\ud800', 6, 7, 'surrogates not allowed')" |}.

Definition surrogate_loads (s : string) : result pyval :=
  if (s =? surrogate_body)%string then Ok (PStr lone_surrogate)
  else sample_loads s.

Definition strict_stdout (line : string) : result unit :=
  if str_in lone_surrogate line then Raise encode_error else Ok tt.

Definition strict_world : World :=
  {| K_SERVICE := Some "executor";
     blob_download_as_bytes := sample_blobs;
     bytes_decode := sample_decode;
     json_loads := surrogate_loads;
     credentials_refresh := Ok "ya29.token";
     now_microseconds := early_clock;
     requests_post := fun _ _ _ => Ok accepted;
     requests_get := fun _ _ => Ok running;
     stdout_write := strict_stdout |}.

(** Requests that are no object, and whose [workflow_properties] is
    none. *)
Definition bodiless : Request := {| is_json := false; get_data := "" |}.

End MoreScenarios.

(* ================================================================== *)
(** * Facts about the Python built-ins *)
(* ================================================================== *)

Module PyFacts.
Import Py Notions.

Lemma append_assoc (a b c : string) : (a ++ b) ++ c = a ++ (b ++ c).
Proof. induction a as [|x a IH]; simpl; [reflexivity | now rewrite IH]. Qed.

Lemma append_nil_r (a : string) : a ++ "" = a.
Proof. induction a as [|x a IH]; simpl; [reflexivity | now rewrite IH]. Qed.

Lemma prefix_app (p s : string) : prefix p (p ++ s) = true.
Proof.
  induction p as [|c p IH]; simpl.
  - now destruct s.
  - destruct (ascii_dec c c) as [_|n]; [exact IH | now elim n].
Qed.

Lemma prefix_nil (s : string) : prefix "" s = true.
Proof. now destruct s. Qed.

(** ** [str_in] *)

Lemma str_in_cons (sub : string) (c : ascii) (s : string) :
  str_in sub (String c s) = prefix sub (String c s) || str_in sub s.
Proof. reflexivity. Qed.

Lemma str_in_app (a sub b : string) : str_in sub (a ++ sub ++ b) = true.
Proof.
  induction a as [|c a IH].
  - change ("" ++ sub ++ b) with (sub ++ b).
    destruct (sub ++ b) eqn:E; unfold str_in; fold str_in;
      rewrite <- E, prefix_app; reflexivity.
  - change (String c a ++ sub ++ b) with (String c (a ++ sub ++ b)).
    rewrite str_in_cons, IH. apply orb_true_r.
Qed.

(** ** [replace] *)

Lemma replace_from_cons (old new : string) (skip : nat) (c : ascii) (s : string) :
  replace_from old new skip (String c s)
  = match skip with
    | S k => replace_from old new k s
    | O => if prefix old (String c s)
           then new ++ replace_from old new (String.length old - 1) s
           else String c (replace_from old new 0 s)
    end.
Proof. reflexivity. Qed.

Lemma split_from_cons (sep : string) (skip : nat) (cur : string) (c : ascii)
  (s : string) :
  split_from sep skip cur (String c s)
  = match skip with
    | S k => split_from sep k cur s
    | O => if prefix sep (String c s)
           then cur :: split_from sep (String.length sep - 1) "" s
           else split_from sep 0 (cur ++ String c "") s
    end.
Proof. reflexivity. Qed.

Lemma replace_from_skip (old new p rest : string) :
  replace_from old new (String.length p) (p ++ rest)
  = replace_from old new 0 rest.
Proof.
  induction p as [|c p IH]; simpl.
  - reflexivity.
  - exact IH.
Qed.

Lemma replace_from_absent (old new s : string) :
  str_in old s = false -> replace_from old new 0 s = s.
Proof.
  induction s as [|c s IH]; intros H.
  - reflexivity.
  - rewrite str_in_cons in H. apply orb_false_elim in H as [Hp Hs].
    rewrite replace_from_cons, Hp, (IH Hs). reflexivity.
Qed.

Lemma replace_occurrence (old new rest : string) :
  old <> "" ->
  replace (old ++ rest) old new = new ++ replace rest old new.
Proof.
  intros Hne. destruct old as [|c old]; [now elim Hne|].
  unfold replace.
  change (String c old ++ rest) with (String c (old ++ rest)).
  rewrite replace_from_cons.
  change (String c (old ++ rest)) with (String c old ++ rest).
  rewrite prefix_app. f_equal.
  replace (String.length (String c old) - 1)%nat with (String.length old)
    by (simpl; lia).
  apply replace_from_skip.
Qed.

(** ** [split] and [join] *)

Lemma prefix_char (c a : ascii) (s : string) :
  prefix (String c "") (String a s) = Ascii.eqb a c.
Proof.
  simpl. destruct (ascii_dec c a) as [->|n].
  - rewrite Ascii.eqb_refl. apply prefix_nil.
  - symmetry. apply Ascii.eqb_neq. congruence.
Qed.

Lemma split_from_nonempty (sep : string) (skip : nat) (cur s : string) :
  split_from sep skip cur s <> [].
Proof.
  revert skip cur. induction s as [|c s IH]; intros skip cur.
  - discriminate.
  - rewrite split_from_cons. destruct skip; [|apply IH].
    destruct (prefix sep (String c s)); [discriminate | apply IH].
Qed.

Lemma split_first_piece (c : ascii) (cur b rest : string) :
  has_char c b = false ->
  split_from (String c "") 0 cur (b ++ String c rest)
  = (cur ++ b) :: split_from (String c "") 0 "" rest.
Proof.
  revert cur. induction b as [|a b IH]; intros cur H.
  - change ("" ++ String c rest) with (String c rest).
    rewrite split_from_cons, prefix_char, Ascii.eqb_refl, append_nil_r.
    reflexivity.
  - simpl in H. apply orb_false_elim in H as [Ha Hb].
    change (String a b ++ String c rest) with (String a (b ++ String c rest)).
    rewrite split_from_cons, prefix_char, Ha, (IH _ Hb), append_assoc.
    reflexivity.
Qed.

Lemma concat_cons (sep x : string) (l : list string) :
  l <> [] -> String.concat sep (x :: l) = x ++ sep ++ String.concat sep l.
Proof. destruct l; [now intros H; elim H | reflexivity]. Qed.

Lemma join_split_from (c : ascii) (cur s : string) :
  join (String c "") (split_from (String c "") 0 cur s) = cur ++ s.
Proof.
  revert cur. induction s as [|a s IH]; intros cur.
  - simpl. now rewrite append_nil_r.
  - rewrite split_from_cons, prefix_char.
    destruct (Ascii.eqb a c) eqn:E.
    + apply Ascii.eqb_eq in E. subst a. unfold join in *.
      rewrite concat_cons by apply split_from_nonempty.
      rewrite IH. reflexivity.
    + rewrite IH, append_assoc. reflexivity.
Qed.

Lemma join_split (c : ascii) (s : string) :
  join (String c "") (split s (String c "")) = s.
Proof. unfold split. apply join_split_from. Qed.

(** ** Digits and [repr] *)

Lemma str_forall_app (p : ascii -> bool) (a b : string) :
  str_forall p (a ++ b) = str_forall p a && str_forall p b.
Proof.
  induction a as [|c a IH]; simpl; [reflexivity|].
  now rewrite IH, andb_assoc.
Qed.

Lemma str_forall_impl (p q : ascii -> bool) (s : string) :
  (forall c, p c = true -> q c = true) ->
  str_forall p s = true -> str_forall q s = true.
Proof.
  intros Hpq. induction s as [|c s IH]; simpl; [reflexivity|].
  intros H. apply andb_prop in H as [Hc Hs].
  now rewrite (Hpq _ Hc), (IH Hs).
Qed.

Lemma digits_of_uint (d : Decimal.uint) :
  str_forall is_digit (NilEmpty.string_of_uint d) = true.
Proof. induction d; simpl; auto. Qed.

Lemma str_of_int_digits (n : Z) :
  0 <= n ->
  str_of_int n <> "" /\ str_forall is_digit (str_of_int n) = true.
Proof.
  intros Hn. unfold str_of_int. destruct n as [|p|p]; [| |lia].
  - split; [discriminate | reflexivity].
  - simpl. unfold NilZero.string_of_uint.
    pose proof (digits_of_uint (Pos.to_uint p)) as Hd.
    destruct (Pos.to_uint p); simpl in *;
      (split; [discriminate | assumption || reflexivity]).
Qed.

Lemma digit_plain (c : ascii) : is_digit c = true -> plain c = true.
Proof.
  destruct c as [[] [] [] [] [] [] [] []]; vm_compute; intros H;
    first [reflexivity | discriminate H].
Qed.

Lemma repr_char_plain (c : ascii) :
  plain c = true -> repr_char squote c = String c "" /\ Ascii.eqb c squote = false.
Proof.
  destruct c as [[] [] [] [] [] [] [] []]; vm_compute; intros H;
    first [split; reflexivity | discriminate H].
Qed.

Lemma repr_chars_plain (s : string) :
  str_forall plain s = true ->
  repr_chars squote s = s /\ has_char squote s = false.
Proof.
  induction s as [|c s IH]; simpl; intros H; [split; reflexivity|].
  apply andb_prop in H as [Hc Hs].
  destruct (repr_char_plain c Hc) as [-> ->], (IH Hs) as [-> ->].
  split; reflexivity.
Qed.

Lemma repr_str_plain (s : string) :
  str_forall plain s = true ->
  repr_str s = "'" ++ s ++ "'".
Proof.
  intros H. destruct (repr_chars_plain s H) as [Hr Hq].
  unfold repr_str, repr_quote. rewrite Hq. simpl. now rewrite Hr.
Qed.

Lemma str_of_int_plain (n : Z) : str_forall plain (str_of_int n) = true.
Proof.
  assert (Hu : forall d, str_forall plain (NilZero.string_of_uint d) = true).
  { intros d. unfold NilZero.string_of_uint.
    assert (str_forall plain (NilEmpty.string_of_uint d) = true)
      by (apply str_forall_impl with (p := is_digit);
          [exact digit_plain | apply digits_of_uint]).
    destruct d; auto. }
  unfold str_of_int. destruct n as [|p|p]; simpl.
  - reflexivity.
  - apply Hu.
  - now rewrite Hu.
Qed.

(** ** Values *)

Lemma py_bool_str (s : string) : py_bool (PStr s) = true <-> s <> "".
Proof.
  simpl. rewrite negb_true_iff. apply String.eqb_neq.
Qed.

Lemma dict_get_find d key v :
  dict_find d key = Some v -> dict_get d key PNone = v.
Proof. unfold dict_get. now intros ->. Qed.

Lemma round_half_even_nonneg (n d : Z) :
  0 <= n -> 0 < d -> 0 <= round_half_even n d.
Proof.
  intros Hn Hd. unfold round_half_even.
  assert (0 <= n / d) by (apply Z.div_pos; lia).
  destruct (2 * (n mod d) <? d); [assumption|].
  destruct (d <? 2 * (n mod d)); [lia|].
  destruct (Z.even (n / d)); lia.
Qed.

(** ** The synthesized path *)

(** Stripping the scheme and splitting recovers bucket and key. *)
Lemma synthesized_path_parts (bucket key : string) :
  has_char "/" bucket = false ->
  str_in "gs://" (bucket ++ "/" ++ key) = false ->
  split (replace ("gs://" ++ bucket ++ "/" ++ key) "gs://" "") "/"
  = bucket :: split key "/".
Proof.
  intros Hslash Hscheme.
  rewrite replace_occurrence by discriminate.
  unfold replace. rewrite (replace_from_absent _ _ _ Hscheme).
  change ("" ++ bucket ++ "/" ++ key) with (bucket ++ String "/" key).
  unfold split. now rewrite split_first_piece.
Qed.

End PyFacts.

(* ================================================================== *)
(** * Facts about runs *)
(* ================================================================== *)

Module RunFacts.
Import Py Effects Env Main Notions.

Lemma framed_ret {A} (a : A) : framed (ret a).
Proof. intros log. unfold ret. simpl. now rewrite app_nil_r. Qed.

Lemma framed_raise {A} (e : exn) : framed (@raise A e).
Proof. intros log. unfold raise. simpl. now rewrite app_nil_r. Qed.

Lemma framed_lift {A} (r : result A) : framed (lift r).
Proof. intros log. unfold lift. simpl. now rewrite app_nil_r. Qed.

Lemma framed_perform {A} (ev : event) (r : result A) : framed (perform ev r).
Proof. intros log. reflexivity. Qed.

Lemma framed_print (line : string) : framed (print line).
Proof. apply framed_perform. Qed.

Lemma framed_bind {A B} (m : M A) (k : A -> M B) :
  framed m -> (forall a, framed (k a)) -> framed (bind m k).
Proof.
  intros Hm Hk log. unfold bind. rewrite (Hm log).
  destruct (m []) as [l [a|e]]; simpl.
  - rewrite (Hk a (log ++ l)%list), (Hk a l). simpl. now rewrite app_assoc.
  - reflexivity.
Qed.

Lemma framed_try_except {A} (m : M A) (c : exn -> bool) (h : exn -> M A) :
  framed m -> (forall e, framed (h e)) -> framed (try_except m c h).
Proof.
  intros Hm Hh log. unfold try_except. rewrite (Hm log).
  destruct (m []) as [l [a|e]]; simpl; [reflexivity|].
  destruct (c e); [|reflexivity].
  rewrite (Hh e (log ++ l)%list), (Hh e l). simpl. now rewrite app_assoc.
Qed.

Ltac framed_step :=
  match goal with
  | |- framed (bind _ _) => apply framed_bind; [|intros ?]
  | |- framed (try_except _ _ _) => apply framed_try_except; [|intros ?]
  | |- framed (ret _) => apply framed_ret
  | |- framed (raise _) => apply framed_raise
  | |- framed (lift _) => apply framed_lift
  | |- framed (print _) => apply framed_print
  | |- framed (perform _ _) => apply framed_perform
  | |- framed (if ?b then _ else _) => destruct b
  | |- framed (let _ := _ in _) => cbv zeta
  end.

Lemma framed_extract_params w b j f : framed (extract_params w b j f).
Proof.
  unfold extract_params, download_as_bytes. repeat framed_step.
Qed.

Lemma framed_create_batch_job w wn jn qv wp ep :
  framed (create_batch_job w wn jn qv wp ep).
Proof.
  unfold create_batch_job, refresh_token, post. repeat framed_step.
Qed.

Lemma framed_get_job_status w job_id ep : framed (get_job_status w job_id ep).
Proof.
  unfold get_job_status, refresh_token, http_get. repeat framed_step.
Qed.

Lemma framed_execute w job_id wn jn qv wp ep :
  framed (execute_job_or_get_status w job_id wn jn qv wp ep).
Proof.
  unfold execute_job_or_get_status.
  destruct (py_bool job_id);
    [apply framed_get_job_status | apply framed_create_batch_job].
Qed.

Lemma avoids_ret kind {A} (a : A) : avoids kind (ret a).
Proof. intros log. exists []. simpl. now rewrite app_nil_r. Qed.

Lemma avoids_raise kind {A} (e : exn) : avoids kind (@raise A e).
Proof. intros log. exists []. simpl. now rewrite app_nil_r. Qed.

Lemma avoids_lift kind {A} (r : result A) : avoids kind (lift r).
Proof. intros log. exists []. simpl. now rewrite app_nil_r. Qed.

Lemma avoids_perform kind {A} (ev : event) (r : result A) :
  kind ev = false -> avoids kind (perform ev r).
Proof. intros H log. exists [ev]. simpl. now rewrite H. Qed.

Lemma avoids_print kind (line : string) :
  kind (Printed line) = false -> avoids kind (print line).
Proof. apply avoids_perform. Qed.

Lemma avoids_bind kind {A B} (m : M A) (k : A -> M B) :
  avoids kind m -> (forall a, avoids kind (k a)) -> avoids kind (bind m k).
Proof.
  intros Hm Hk log. destruct (Hm log) as (evs1 & E1 & F1).
  unfold bind. destruct (m log) as [l [a|e]]; simpl in *; subst l.
  - destruct (Hk a (log ++ evs1)%list) as (evs2 & E2 & F2).
    exists (evs1 ++ evs2)%list. rewrite E2, app_assoc, forallb_app, F1, F2.
    now split.
  - now exists evs1.
Qed.

Lemma avoids_try_except kind {A} (m : M A) (c : exn -> bool) (h : exn -> M A) :
  avoids kind m -> (forall e, avoids kind (h e)) -> avoids kind (try_except m c h).
Proof.
  intros Hm Hh log. destruct (Hm log) as (evs1 & E1 & F1).
  unfold try_except. destruct (m log) as [l [a|e]]; simpl in *; subst l.
  - now exists evs1.
  - destruct (c e); [|now exists evs1].
    destruct (Hh e (log ++ evs1)%list) as (evs2 & E2 & F2).
    exists (evs1 ++ evs2)%list. rewrite E2, app_assoc, forallb_app, F1, F2.
    now split.
Qed.

Ltac avoids_step :=
  match goal with
  | |- avoids _ (bind _ _) => apply avoids_bind; [|intros ?]
  | |- avoids _ (try_except _ _ _) => apply avoids_try_except; [|intros ?]
  | |- avoids _ (ret _) => apply avoids_ret
  | |- avoids _ (raise _) => apply avoids_raise
  | |- avoids _ (lift _) => apply avoids_lift
  | |- avoids _ (print _) => apply avoids_print; reflexivity
  | |- avoids _ (perform _ _) => apply avoids_perform; reflexivity
  | |- avoids _ (if ?b then _ else _) => destruct b
  | |- avoids _ (let _ := _ in _) => cbv zeta
  end.

Lemma extract_params_avoids_http w b j f : avoids is_http (extract_params w b j f).
Proof. unfold extract_params, download_as_bytes. repeat avoids_step. Qed.

Lemma create_batch_job_avoids_get w wn jn qv wp ep :
  avoids is_get (create_batch_job w wn jn qv wp ep).
Proof. unfold create_batch_job, refresh_token, post. repeat avoids_step. Qed.

Lemma get_job_status_avoids_post w job_id ep :
  avoids is_post (get_job_status w job_id ep).
Proof. unfold get_job_status, refresh_token, http_get. repeat avoids_step. Qed.

Lemma avoids_not_in kind {A} (m : M A) (ev : event) :
  avoids kind m -> kind ev = true -> ~ In ev (fst (m [])).
Proof.
  intros Hm Hk Hin. destruct (Hm []) as (evs & E & F). simpl in E.
  rewrite E in Hin. rewrite forallb_forall in F.
  specialize (F _ Hin). rewrite Hk in F. discriminate.
Qed.

(** ** Runs of [bind] *)

Lemma bind_ok {A B} (m : M A) (k : A -> M B) log l b :
  bind m k log = (l, Ok b) ->
  exists a l1, m log = (l1, Ok a) /\ k a l1 = (l, Ok b).
Proof.
  unfold bind. destruct (m log) as [l1 [a|e]]; intros H.
  - now exists a, l1.
  - discriminate.
Qed.

End RunFacts.

(* ================================================================== *)
(** * The structure of a run of [main] *)
(* ================================================================== *)

Module MainFacts.
Import Py Effects Env Main Notions RunFacts.

(** The guarded block under the blanket handler. *)
Lemma guarded_unfold w request_json l0 :
  try_except (main_try w request_json) (fun _ => true)
    (fun error =>
       bind (print ("Exception: " ++ exn_repr error))
            (fun _ => ret (error_response error))) l0
  = match main_try w request_json l0 with
    | (l, Ok v) => (l, Ok v)
    | (l, Raise e) =>
        ((l ++ [Printed ("Exception: " ++ exn_repr e)])%list,
         Ok (error_response e))
    end.
Proof.
  unfold try_except. destruct (main_try w request_json l0) as [l [v|e]];
    reflexivity.
Qed.

(** [main] reads the body, prints it, and runs its guarded block under
    the blanket handler. *)
Lemma main_unfold w request log :
  main w request log =
  match get_json_silent w request with
  | Raise e => (log, Raise e)
  | Ok request_json =>
      match print_event w request_json log with
      | (l0, Raise e) => (l0, Raise e)
      | (l0, Ok _) =>
          match main_try w request_json l0 with
          | (l, Ok v) => (l, Ok v)
          | (l, Raise e) =>
              ((l ++ [Printed ("Exception: " ++ exn_repr e)])%list,
               Ok (error_response e))
          end
      end
  end.
Proof.
  unfold main, bind, lift.
  destruct (get_json_silent w request) as [request_json|e]; [|reflexivity].
  destruct (print_event w request_json log) as [l0 [[]|e]]; [|reflexivity].
  apply guarded_unfold.
Qed.

(** A body that is no string is printed whatever it holds. *)
Lemma print_event_plain w request_json log :
  isinstance_str request_json = false ->
  print_event w request_json log
  = ((log ++ [Printed ("event:" ++ str request_json)])%list, Ok tt).
Proof. unfold print_event. now intros ->. Qed.

(** The print of the event adds the event line or nothing. *)
Lemma print_event_log w request_json log :
  fst (print_event w request_json log)
  = match snd (print_event w request_json log) with
    | Ok _ => (log ++ [Printed ("event:" ++ str request_json)])%list
    | Raise _ => log
    end.
Proof.
  unfold print_event, print_raw, print, perform. cbv zeta.
  destruct (isinstance_str request_json); [|reflexivity].
  now destruct (stdout_write w _).
Qed.

(** The run of [main] on a body that is a JSON object. *)
Lemma main_object w request d log :
  get_json_silent w request = Ok (PDict d) ->
  main w request log =
  match main_try w (PDict d)
          (log ++ [Printed ("event:" ++ str (PDict d))])%list with
  | (l, Ok v) => (l, Ok v)
  | (l, Raise e) =>
      ((l ++ [Printed ("Exception: " ++ exn_repr e)])%list,
       Ok (error_response e))
  end.
Proof.
  intros Hd. rewrite main_unfold, Hd. now rewrite print_event_plain.
Qed.

(** A body that is not a JSON object fails at the first field access. *)
Lemma main_try_not_dict w request_json log :
  (forall d, request_json <> PDict d) ->
  main_try w request_json log = (log, Raise (no_attribute request_json "get")).
Proof.
  intros H. destruct request_json; try reflexivity. now elim (H d).
Qed.

(** The run of [main] on a body that is no object: nothing, when reading
    or printing the body raised, and otherwise the event and the
    exception of the first field access. *)
Lemma main_not_object w request :
  (forall d, get_json_silent w request <> Ok (PDict d)) ->
  main w request [] = ([], snd (main w request [])) \/
  exists body,
    get_json_silent w request = Ok body /\
    main w request []
    = ([Printed ("event:" ++ str body);
        Printed ("Exception: " ++ exn_repr (no_attribute body "get"))],
       Ok (error_response (no_attribute body "get"))).
Proof.
  intros Hbody. rewrite !main_unfold.
  destruct (get_json_silent w request) as [body|e]; [|now left].
  pose proof (print_event_log w body []) as Hlog.
  destruct (print_event w body []) as [l0 [[]|e]]; cbn [fst snd] in Hlog;
    subst l0; [|now left].
  right. exists body. split; [reflexivity|].
  rewrite main_try_not_dict; [reflexivity|].
  intros d ->. now elim (Hbody d).
Qed.

Lemma forallb_not_in {A} (p : A -> bool) (l : list A) (x : A) :
  forallb (fun y => negb (p y)) l = true -> p x = true -> ~ In x l.
Proof.
  intros F Hp Hin. rewrite forallb_forall in F. specialize (F _ Hin).
  now rewrite Hp in F.
Qed.

(** Splits a membership in a log built by appending into its cases. *)
Ltac in_cases H :=
  cbn [fst snd] in H;
  repeat match type of H with
         | In _ (_ ++ _)%list => apply in_app_or in H; destruct H as [H|H]
         | In _ (_ :: _) => apply in_inv in H; destruct H as [H|H]
         | In _ [] => destruct H
         end.

(** What precedes the dispatch in the guarded block makes no HTTP call. *)
Lemma parameters_phase_is_quiet w bucket job_name log :
  exists ep evs,
    (if py_bool bucket
     then extract_params w bucket job_name (function_name w)
     else ret (PDict [])) log = ((log ++ evs)%list, ep) /\
    forallb (fun ev => negb (is_http ev)) evs = true.
Proof.
  destruct (py_bool bucket).
  - destruct (extract_params_avoids_http w bucket job_name (function_name w) log)
      as (evs & E & F).
    destruct (extract_params _ _ _ _ log) as [l1 ep]. cbn [fst] in E.
    subst l1. now exists ep, evs.
  - exists (Ok (PDict [])), []. unfold ret. now rewrite app_nil_r.
Qed.

(** Every HTTP call in a run of [main] is made by the dispatch, on the
    fields of the request, and [main] returns what the dispatch yields. *)
Lemma main_http_events w request ev :
  In ev (fst (main w request [])) -> is_http ev = true ->
  exists d ep,
    get_json_silent w request = Ok (PDict d) /\
    let run :=
      execute_job_or_get_status w
        (dict_get d "job_id" PNone) (dict_get d "workflow_name" PNone)
        (dict_get d "job_name" PNone) (dict_get d "query_variables" PNone)
        (dict_get d "workflow_properties" PNone) ep [] in
    In ev (fst run) /\ snd (main w request []) = Ok (main_outcome (snd run)).
Proof.
  intros Hin Hev.
  destruct (get_json_silent w request) as [[| | | | |d]|e] eqn:Ej;
    try (destruct (main_not_object w request) as [Hnone|(body & _ & Hrun)];
         [ rewrite Ej; intros ?; discriminate
         | rewrite Hnone in Hin; destruct Hin
         | rewrite Hrun in Hin; exfalso; in_cases Hin; subst ev;
           discriminate ]).
  rewrite (main_object _ _ _ _ Ej) in *.
  set (l0 := ([] ++ [Printed ("event:" ++ str (PDict d))])%list) in *.
  exists d.
  unfold main_try, bind, lift, get in *.
  destruct (dict_get d "workflow_properties" (PDict [])) as [| | | | |props];
    try (exfalso; unfold l0 in Hin; in_cases Hin; subst ev; discriminate).
  destruct (parameters_phase_is_quiet w
              (dict_get props "jobs_definitions_bucket" PNone)
              (dict_get d "job_name" PNone) l0) as (rp & evs1 & Epre & F1).
  rewrite Epre in *. clear Epre.
  assert (Hpost : forall l, In ev (l0 ++ evs1)%list \/ In ev l -> In ev l).
  { intros l [H|H]; [exfalso|exact H]. unfold l0 in H. in_cases H.
    - subst ev; discriminate.
    - exact (forallb_not_in is_http _ _ F1 Hev H). }
  destruct rp as [ep|e].
  2:{ exfalso. apply (Hpost []).
      in_cases Hin; try (subst ev; discriminate); rewrite in_app_iff; tauto. }
  exists ep. cbv zeta. split; [reflexivity|].
  match goal with
  | |- In ev (fst ?run) /\ _ => set (m := run) in *
  end.
  match type of Hin with
  | context [execute_job_or_get_status ?a ?b ?c ?d ?e ?f ?g ?l] =>
      rewrite (framed_execute a b c d e f g l) in *
  end.
  fold m in Hin |- *.
  destruct m as [evs [v|e]]; cbn [fst snd main_outcome] in *.
  - destruct (call_startswith v "aef-") as [[]|e];
      unfold print, perform, ret in *; cbn [fst snd] in *;
      (split; [|reflexivity]); apply Hpost;
      in_cases Hin; try (subst ev; discriminate); rewrite in_app_iff; tauto.
  - split; [|reflexivity]. apply Hpost.
    in_cases Hin; try (subst ev; discriminate); rewrite in_app_iff; tauto.
Qed.


End MainFacts.

(* ================================================================== *)
(** * The outbound REST calls *)
(* ================================================================== *)

Module CallFacts.
Import Py Effects Env Main Notions PyFacts RunFacts MainFacts.

Ltac destruct_innermost x :=
  lazymatch x with
  | context [match ?y with _ => _ end] => destruct_innermost y
  | _ => destruct x eqn:?
  end.

(** One step of a run: reduce, then split on the next value the run
    depends on. *)
Ltac step_in H :=
  cbv beta iota zeta in H |- *;
  match type of H with
  | context [match ?x with _ => _ end] => destruct_innermost x
  end.

Ltac run_in H :=
  unfold create_batch_job, get_job_status, bind, lift, get, ret, raise,
    refresh_token, post, http_get, print, perform in H |- *;
  repeat step_in H;
  in_cases H; try discriminate H.

Lemma HttpPost_inj u p h u' p' h' :
  HttpPost u p h = HttpPost u' p' h' -> u = u' /\ p = p' /\ h = h'.
Proof. intros H. now injection H. Qed.

Lemma HttpGet_inj u h u' h' :
  HttpGet u h = HttpGet u' h' -> u = u' /\ h = h'.
Proof. intros H. now injection H. Qed.

(** The facts about the [POST] of a creation call: where it comes from,
    what its payload holds and how the call ends. *)
Lemma create_batch_job_post w wn jn qv wp ep u p h :
  In (HttpPost u p h) (fst (create_batch_job w wn jn qv wp ep [])) ->
  exists d props,
    ep = PDict d /\
    (if isinstance_str (dict_get d "spark_app_properties" PNone)
     then json_loads w (str (dict_get d "spark_app_properties" PNone))
     else Ok (dict_get d "spark_app_properties" PNone)) = Ok props /\
    lookup_path p ["runtime_config"; "properties"] = Some props /\
    (let cluster := dict_get d "spark_history_server_cluster" PNone in
     let path :=
       PStr ("projects/" ++ str (dict_get d "dataproc_serverless_project_id" PNone)
             ++ "/regions/" ++ str (dict_get d "dataproc_serverless_region" PNone)
             ++ "/clusters/" ++ str cluster) in
     lookup_path p ["environment_config"; "peripherals_config"] =
       (if py_bool cluster
        then Some (PDict [("spark_history_server_config",
                           PDict [("dataproc_cluster", path)])])
        else None) /\
     lookup_path p ["environment_config"; "peripherals_config";
                    "spark_history_server_config"; "dataproc_cluster"] =
       (if py_bool cluster then Some path else None)) /\
    snd (create_batch_job w wn jn qv wp ep []) =
      match requests_post w u p h with
      | Ok resp =>
          if status_code resp =? 200
          then Ok (PStr ("aef-" ++ str_of_int
                           (int_round_timestamp (now_microseconds w))))
          else Raise (exn_of_message Exception
                        ("Dataproc API CREATE request failed. Status code:"
                         ++ str_of_int (status_code resp)))
      | Raise e => Raise e
      end.
Proof.
  intros Hin. run_in Hin; apply HttpPost_inj in Hin as (<- & <- & <-);
    cbv beta iota zeta in *; cbn [snd];
    match goal with
    | Hl : _ = Ok ?props |- exists d' _, PDict ?d = PDict d' /\ _ =>
        exists d, props
    | |- exists d' _, PDict ?d = PDict d' /\ _ =>
        exists d, (dict_get d "spark_app_properties" PNone)
    end;
    repeat match goal with
    | H : isinstance_str _ = _ |- _ => rewrite H
    | H : py_bool _ = _ |- _ => rewrite H
    | H : requests_post _ _ _ _ = _ |- _ => rewrite H
    | H : (status_code _ =? 200) = _ |- _ => rewrite H
    end;
    repeat split; assumption || reflexivity.
Qed.

(** The same for the [GET] of a status lookup. *)
Lemma get_job_status_get w job_id ep u h :
  In (HttpGet u h) (fst (get_job_status w job_id ep [])) ->
  snd (get_job_status w job_id ep []) =
    match requests_get w u h with
    | Ok resp =>
        if status_code resp =? 200
        then match json resp with
             | Ok body => get body "state" PNone
             | Raise e => Raise e
             end
        else Raise (exn_of_message Exception
                      ("Dataproc API GET request failed. Status code:"
                       ++ str_of_int (status_code resp)))
    | Raise e => Raise e
    end.
Proof.
  intros Hin. run_in Hin; apply HttpGet_inj in Hin as (<- & <-);
    cbv beta iota zeta in *; cbn [snd];
    repeat match goal with
    | H : requests_get _ _ _ = _ |- _ => rewrite H
    | H : (status_code _ =? 200) = _ |- _ => rewrite H
    | H : json _ = _ |- _ => rewrite H
    | H : ?b = _ |- context [match ?b with _ => _ end] => rewrite H
    end; reflexivity.
Qed.

Lemma failure_exn_repr (verb : string) (code : Z) :
  str_forall plain verb = true ->
  exn_repr (exn_of_message Exception
              ("Dataproc API " ++ verb ++ " request failed. Status code:"
               ++ str_of_int code))
  = failure_repr verb code.
Proof.
  intros Hverb. unfold exn_of_message, failure_repr. cbn [exn_repr class_name].
  rewrite repr_str_plain.
  - cbn. f_equal. repeat (rewrite ?append_assoc; cbn). reflexivity.
  - change ("Dataproc API " ++ verb ++ " request failed. Status code:"
            ++ str_of_int code)
      with ("Dataproc API " ++ (verb ++ (" request failed. Status code:"
            ++ str_of_int code))).
    rewrite !str_forall_app, Hverb, str_of_int_plain. reflexivity.
Qed.

Lemma failure_repr_has_code (verb : string) (code : Z) :
  str_in (str_of_int code) (failure_repr verb code) = true.
Proof.
  unfold failure_repr.
  replace ("Exception('Dataproc API " ++ verb
           ++ " request failed. Status code:" ++ str_of_int code ++ "')")
    with (("Exception('Dataproc API " ++ verb
           ++ " request failed. Status code:") ++ str_of_int code ++ "')")
    by (now rewrite !append_assoc).
  apply str_in_app.
Qed.

(** Where the HTTP call of a run of [main] comes from: a [POST] from
    [create_batch_job] under a falsy [job_id], a [GET] from [get_job_status]
    under a truthy one. *)
Lemma main_post_event w request u p h :
  In (HttpPost u p h) (fst (main w request [])) ->
  exists d ep,
    get_json_silent w request = Ok (PDict d) /\
    py_bool (dict_get d "job_id" PNone) = false /\
    let run :=
      create_batch_job w
        (dict_get d "workflow_name" PNone) (dict_get d "job_name" PNone)
        (dict_get d "query_variables" PNone)
        (dict_get d "workflow_properties" PNone) ep [] in
    In (HttpPost u p h) (fst run) /\
    snd (main w request []) = Ok (main_outcome (snd run)).
Proof.
  intros Hin.
  destruct (main_http_events w request _ Hin eq_refl)
    as (d & ep & Hd & Hrun & Hout).
  exists d, ep. unfold execute_job_or_get_status in *.
  destruct (py_bool (dict_get d "job_id" PNone)).
  - exfalso. revert Hrun.
    apply (@avoids_not_in is_post _ _ _ (get_job_status_avoids_post w _ ep)).
    reflexivity.
  - cbv zeta. auto.
Qed.

Lemma main_get_event w request u h :
  In (HttpGet u h) (fst (main w request [])) ->
  exists d ep,
    get_json_silent w request = Ok (PDict d) /\
    py_bool (dict_get d "job_id" PNone) = true /\
    let run := get_job_status w (dict_get d "job_id" PNone) ep [] in
    In (HttpGet u h) (fst run) /\
    snd (main w request []) = Ok (main_outcome (snd run)).
Proof.
  intros Hin.
  destruct (main_http_events w request _ Hin eq_refl)
    as (d & ep & Hd & Hrun & Hout).
  exists d, ep. unfold execute_job_or_get_status in *.
  destruct (py_bool (dict_get d "job_id" PNone)).
  - cbv zeta. auto.
  - exfalso. revert Hrun.
    apply (@avoids_not_in is_get _ _ _ (create_batch_job_avoids_get w _ _ _ _ ep)).
    reflexivity.
Qed.

(** ** Parameters that resolve to [None] *)

(** Neither branch of the dispatch survives [None] as parameters. *)
Lemma none_params_abort_dispatch w job_id wn jn qv wp log :
  execute_job_or_get_status w job_id wn jn qv wp PNone log
  = (log, Raise (no_attribute PNone "get")).
Proof.
  unfold execute_job_or_get_status. destruct (py_bool job_id); reflexivity.
Qed.

(** A failed download of one of the three swallowed kinds resolves the
    parameters to [None]. *)
Lemma load_failure_resolves_to_none w bucket job_name function_name e log :
  (forall b o, blob_download_as_bytes w b o = Raise e) ->
  is_load_failure e = true ->
  snd (extract_params w bucket job_name function_name log) = Ok PNone.
Proof.
  intros Hdown Hkind. unfold extract_params, bind, lift, first_part.
  cbv zeta.
  destruct (split _ _) as [|b parts] eqn:Hparts.
  - now apply split_from_nonempty in Hparts.
  - cbv beta iota. unfold try_except, bind, download_as_bytes, perform.
    rewrite Hdown, Hkind. reflexivity.
Qed.

(** So a creation request whose download fails that way never reaches
    the REST API: the handler answers with the [AttributeError] object. *)
Lemma failed_load_never_creates w request d props e :
  get_json_silent w request = Ok (PDict d) ->
  dict_get d "workflow_properties" (PDict []) = PDict props ->
  py_bool (dict_get props "jobs_definitions_bucket" PNone) = true ->
  (forall b o, blob_download_as_bytes w b o = Raise e) ->
  is_load_failure e = true ->
  snd (main w request []) = Ok (error_response (no_attribute PNone "get")) /\
  forall u p h, ~ In (HttpPost u p h) (fst (main w request [])).
Proof.
  intros Hd Hprops Hbucket Hdown Hkind.
  assert (Hrun : exists evs,
            main w request []
            = (evs, Ok (error_response (no_attribute PNone "get")))
            /\ forallb (fun ev => negb (is_http ev)) evs = true).
  { rewrite (main_object _ _ _ _ Hd).
    unfold main_try, bind, lift, get, ret. rewrite Hprops.
    cbv beta iota. rewrite Hbucket.
    match goal with
    | |- context [extract_params w ?b ?j ?f ?l] =>
        destruct (extract_params_avoids_http w b j f l)
          as (evs & Hevs & Hquiet);
        pose proof (load_failure_resolves_to_none w b j f e l Hdown Hkind)
          as Hnone;
        destruct (extract_params w b j f l) as [l1 r1]
    end.
    cbn [fst snd] in Hevs, Hnone. subst l1 r1.
    rewrite none_params_abort_dispatch.
    eexists. split; [reflexivity|].
    rewrite !forallb_app, Hquiet. reflexivity. }
  destruct Hrun as (evs & -> & Hquiet). split; [reflexivity|].
  intros u p h Hin.
  exact (forallb_not_in is_http evs (HttpPost u p h) Hquiet eq_refl Hin).
Qed.

(** A creation call whose parameters are an object posts as soon as the
    Spark properties parse, or need no parsing, and the credentials
    refresh. *)
Lemma create_batch_job_posts w wn jn qv wp d parsed token :
  (let properties := dict_get d "spark_app_properties" PNone in
   if isinstance_str properties then json_loads w (str properties)
   else Ok properties) = Ok parsed ->
  credentials_refresh w = Ok token ->
  exists u p h,
    In (HttpPost u p h) (fst (create_batch_job w wn jn qv wp (PDict d) [])).
Proof.
  cbv zeta. intros Hparsed Htoken.
  unfold create_batch_job, bind, lift, get, ret, raise, refresh_token, post,
    print, perform.
  cbv beta iota zeta.
  destruct (isinstance_str (dict_get d "spark_app_properties" PNone));
    [rewrite Hparsed|]; cbv beta iota zeta; rewrite Htoken;
    cbv beta iota zeta;
    destruct (py_bool _); cbv beta iota zeta;
      match goal with
      | |- context [requests_post w ?u ?p ?h] =>
          exists u, p, h; destruct (requests_post w u p h) as [resp|e];
          [destruct (status_code resp =? 200)|];
          cbv beta iota zeta; cbn [fst];
          repeat (apply in_or_app; first [right; left; reflexivity | left])
      end.
Qed.

(** ** The whole run of the handler *)

Lemma framed_main_try w request_json : framed (main_try w request_json).
Proof.
  unfold main_try.
  repeat first [ apply framed_extract_params | apply framed_execute
               | framed_step ].
Qed.

(** The run of [main] on a JSON object whose [workflow_properties] is an
    object or absent: the parameter phase, then the dispatch. *)
Lemma main_object_run w request d props :
  get_json_silent w request = Ok (PDict d) ->
  dict_get d "workflow_properties" (PDict []) = PDict props ->
  let bucket := dict_get props "jobs_definitions_bucket" PNone in
  let load :=
    if py_bool bucket
    then extract_params w bucket (dict_get d "job_name" PNone) (function_name w) []
    else ([], Ok (PDict [])) in
  let said := Printed ("event:" ++ str (PDict d)) in
  match snd load with
  | Raise e =>
      main w request []
      = ((said :: fst load ++ [Printed ("Exception: " ++ exn_repr e)])%list,
         Ok (error_response e))
  | Ok ep =>
      let run :=
        execute_job_or_get_status w
          (dict_get d "job_id" PNone) (dict_get d "workflow_name" PNone)
          (dict_get d "job_name" PNone) (dict_get d "query_variables" PNone)
          (dict_get d "workflow_properties" PNone) ep [] in
      snd (main w request []) = Ok (main_outcome (snd run)) /\
      exists line,
        fst (main w request [])
        = (said :: fst load ++ fst run ++ [Printed line])%list
  end.
Proof.
  intros Hd Hprops bucket load said.
  rewrite !(main_object _ _ _ _ Hd).
  unfold main_try, bind, lift, get. rewrite Hprops. cbv beta iota.
  fold bucket.
  assert (Hload :
    (if py_bool bucket
     then extract_params w bucket (dict_get d "job_name" PNone) (function_name w)
     else ret (PDict [])) ([] ++ [said])%list
    = ((said :: fst load)%list, snd load)).
  { subst load. destruct (py_bool bucket).
    - now rewrite framed_extract_params.
    - reflexivity. }
  fold said. rewrite Hload. clear Hload.
  destruct (snd load) as [ep|e]; [|reflexivity].
  cbv zeta.
  match goal with
  | |- context [execute_job_or_get_status ?a ?b ?c ?x ?y ?z ?g (said :: ?l)] =>
      rewrite (framed_execute a b c x y z g (said :: l));
      destruct (execute_job_or_get_status a b c x y z g []) as [evs [v|err]]
  end; cbn [fst snd main_outcome].
  - destruct (call_startswith v "aef-") as [[]|e];
      unfold print, perform, ret; cbn [fst snd];
      (split; [reflexivity|]); eexists;
      rewrite <- ?app_assoc; reflexivity.
  - split; [reflexivity|]. eexists. rewrite <- ?app_assoc. reflexivity.
Qed.

End CallFacts.

(* ================================================================== *)
(** * The claims *)
(* ================================================================== *)

Module Claims.
Import Py Effects Env Main Notions Scenarios MoreScenarios.
Import PyFacts RunFacts MainFacts CallFacts.

(** C1 (the code departs from the claim).  The claim: when the parameter
    fetch of a creation request fails (object not found, malformed JSON,
    decode error) the parameters resolve to an absent result, the failure is
    not fatal, and job creation still proceeds with the missing fields
    absent or null.  In the code [extract_params] swallows the three
    failures and resolves to [None], but [create_batch_job] then calls
    [None.get]: the request ends with the [AttributeError] error object and
    nothing is posted.  Evaluated on the creation request in the three
    sample worlds whose blob is missing, is not JSON, and is not UTF-8;
    [failed_load_never_creates] has it for every world. *)
Theorem failed_parameter_load_aborts_creation :
  let request := request_of creation_body in
  let answer :=
    Ok (PDict [("error", PStr "AttributeError");
               ("message",
                PStr ("AttributeError("
                      ++ String dquote "'NoneType' object has no attribute 'get'"
                      ++ String dquote ")"))]) in
  (snd (extract_params missing_blob_world (PStr "acme-jobs") (PStr "etl")
          (PStr "executor") []) = Ok PNone
   /\ snd (main missing_blob_world request []) = answer
   /\ forall u p h, ~ In (HttpPost u p h) (fst (main missing_blob_world request [])))
  /\
  (snd (extract_params garbled_blob_world (PStr "acme-jobs") (PStr "etl")
          (PStr "executor") []) = Ok PNone
   /\ snd (main garbled_blob_world request []) = answer
   /\ forall u p h, ~ In (HttpPost u p h) (fst (main garbled_blob_world request [])))
  /\
  (snd (extract_params binary_blob_world (PStr "acme-jobs") (PStr "etl")
          (PStr "executor") []) = Ok PNone
   /\ snd (main binary_blob_world request []) = answer
   /\ forall u p h, ~ In (HttpPost u p h) (fst (main binary_blob_world request []))).
Proof.
  cbv zeta.
  repeat split; try (vm_compute; reflexivity);
    intros u p h Hin; vm_compute in Hin;
    repeat (destruct Hin as [Hin|Hin]; [discriminate Hin|]); exact Hin.
Qed.

(** C2, amended.  Whenever the REST call of a run of the handler (the [POST]
    of a creation, the [GET] of a status lookup) is answered with a status
    other than 200, the handler returns the error object whose [error] is
    the class name [Exception] and whose [message] is the [repr] of the
    raised exception,
    [Exception('Dataproc API <CREATE|GET> request failed. Status code:<code>')].
    The message holds the status code; the response body is no part of
    it. *)
Theorem rest_failure_becomes_error_object w request resp :
  status_code resp <> 200 ->
  let log := fst (main w request []) in
  let answer verb :=
    Ok (PDict [("error", PStr "Exception");
               ("message", PStr (failure_repr verb (status_code resp)))]) in
  (forall u p h,
     In (HttpPost u p h) log -> requests_post w u p h = Ok resp ->
     snd (main w request []) = answer "CREATE") /\
  (forall u h,
     In (HttpGet u h) log -> requests_get w u h = Ok resp ->
     snd (main w request []) = answer "GET") /\
  (forall verb,
     str_in (str_of_int (status_code resp))
            (failure_repr verb (status_code resp)) = true).
Proof.
  intros Hcode log answer. subst log answer. cbv beta.
  apply Z.eqb_neq in Hcode.
  split; [|split].
  - intros u p h Hin Hresp.
    destruct (main_post_event _ _ _ _ _ Hin) as (d & ep & _ & _ & Hrun & ->).
    destruct (create_batch_job_post _ _ _ _ _ _ _ _ _ Hrun)
      as (_ & _ & _ & _ & _ & _ & ->).
    rewrite Hresp, Hcode. cbn [main_outcome]. unfold error_response.
    rewrite <- (failure_exn_repr "CREATE") by reflexivity. reflexivity.
  - intros u h Hin Hresp.
    destruct (main_get_event _ _ _ _ Hin) as (d & ep & _ & _ & Hrun & ->).
    rewrite (get_job_status_get _ _ _ _ _ Hrun), Hresp, Hcode.
    cbn [main_outcome]. unfold error_response.
    rewrite <- (failure_exn_repr "GET") by reflexivity. reflexivity.
  - intros verb. apply failure_repr_has_code.
Qed.

(** C2, the amended statement at the sample world whose API answers 404. *)
Lemma rest_failure_becomes_error_object_witness :
  snd (main failing_api_world (request_of creation_body) [])
  = Ok (PDict [("error", PStr "Exception");
               ("message",
                PStr "Exception('Dataproc API CREATE request failed. Status code:404')")])
  /\
  snd (main failing_api_world (request_of status_body) [])
  = Ok (PDict [("error", PStr "Exception");
               ("message",
                PStr "Exception('Dataproc API GET request failed. Status code:404')")]).
Proof.
  assert (Hcode : status_code rejected <> 200) by (vm_compute; discriminate).
  split.
  - refine (proj1 (@rest_failure_becomes_error_object failing_api_world
                     (request_of creation_body) rejected Hcode)
              happy_url happy_payload happy_headers _ eq_refl).
    vm_compute. do 4 right. left. reflexivity.
  - refine (proj1 (proj2 (@rest_failure_becomes_error_object failing_api_world
                            (request_of status_body) rejected Hcode))
              status_url happy_headers _ eq_refl).
    vm_compute. do 4 right. left. reflexivity.
Defined.

(** C2, counterexample.  The claim as stated: a non-200 answer to a creation
    fails with the dedicated [JobSubmissionError], whose message holds both
    the status code and the raw response body.  Already the weaker reading
    fails, that the error is the dedicated one or the message holds the
    body: in the sample world whose API answers 404 with the body
    [batch quota exhausted], the error object names the class [Exception]
    and its message is
    [Exception('Dataproc API CREATE request failed. Status code:404')]. *)
Lemma rest_failure_is_a_plain_exception :
  ~ (forall w request u p h resp,
       In (HttpPost u p h) (fst (main w request [])) ->
       requests_post w u p h = Ok resp ->
       status_code resp <> 200 ->
       exists error message,
         snd (main w request [])
         = Ok (PDict [("error", PStr error); ("message", PStr message)]) /\
         str_in (str_of_int (status_code resp)) message = true /\
         (error = "JobSubmissionError" \/ str_in (text resp) message = true)).
Proof.
  intros H.
  destruct (H failing_api_world (request_of creation_body)
              happy_url happy_payload happy_headers rejected)
    as (error & message & Hanswer & _ & Hdedicated).
  - vm_compute. do 4 right. left. reflexivity.
  - reflexivity.
  - vm_compute. discriminate.
  - vm_compute in Hanswer. injection Hanswer as <- <-.
    destruct Hdedicated as [Hclass | Hbody].
    + discriminate Hclass.
    + vm_compute in Hbody. discriminate Hbody.
Qed.




(** C4, amended.  When the [POST] of a creation call is answered with HTTP
    200, the call returns ["aef-"] followed by the decimal of the clock
    reading rounded to the nearest whole second (a tie to the even one);
    for a clock not before the epoch this is [aef-<digits>]; and two such
    calls whose readings round to the same second return the same batch
    id. *)
Theorem batch_id_is_rounded_timestamp w wn jn qv wp ep u p h resp :
  In (HttpPost u p h) (fst (create_batch_job w wn jn qv wp ep [])) ->
  requests_post w u p h = Ok resp ->
  status_code resp = 200 ->
  let seconds := int_round_timestamp (now_microseconds w) in
  snd (create_batch_job w wn jn qv wp ep [])
  = Ok (PStr ("aef-" ++ str_of_int seconds)) /\
  (0 <= now_microseconds w ->
   str_of_int seconds <> "" /\ str_forall is_digit (str_of_int seconds) = true) /\
  (forall w' wn' jn' qv' wp' ep' u' p' h' resp',
     In (HttpPost u' p' h') (fst (create_batch_job w' wn' jn' qv' wp' ep' [])) ->
     requests_post w' u' p' h' = Ok resp' ->
     status_code resp' = 200 ->
     int_round_timestamp (now_microseconds w') = seconds ->
     snd (create_batch_job w' wn' jn' qv' wp' ep' [])
     = snd (create_batch_job w wn jn qv wp ep [])).
Proof.
  intros Hin Hresp Hcode seconds.
  assert (Hrun : forall w0 wn0 jn0 qv0 wp0 ep0 u0 p0 h0 resp0,
             In (HttpPost u0 p0 h0) (fst (create_batch_job w0 wn0 jn0 qv0 wp0 ep0 [])) ->
             requests_post w0 u0 p0 h0 = Ok resp0 ->
             status_code resp0 = 200 ->
             snd (create_batch_job w0 wn0 jn0 qv0 wp0 ep0 [])
             = Ok (PStr ("aef-" ++ str_of_int
                           (int_round_timestamp (now_microseconds w0))))).
  { intros w0 wn0 jn0 qv0 wp0 ep0 u0 p0 h0 resp0 Hin0 Hresp0 Hcode0.
    destruct (create_batch_job_post _ _ _ _ _ _ _ _ _ Hin0)
      as (_ & _ & _ & _ & _ & _ & ->).
    now rewrite Hresp0, Hcode0. }
  split; [|split].
  - now apply Hrun with (u0 := u) (p0 := p) (h0 := h) (resp0 := resp).
  - intros Hclock. apply str_of_int_digits.
    apply round_half_even_nonneg; lia.
  - intros w' wn' jn' qv' wp' ep' u' p' h' resp' Hin' Hresp' Hcode' Hsame.
    rewrite (Hrun _ _ _ _ _ _ _ _ _ _ Hin' Hresp' Hcode'),
            (Hrun _ _ _ _ _ _ _ _ _ _ Hin Hresp Hcode), Hsame.
    reflexivity.
Qed.

(** C4, the amended statement at two sample worlds: readings 1700000000.2
    and 1699999999.7 both give [aef-1700000000]. *)
Lemma batch_id_is_rounded_timestamp_witness :
  snd (create_batch_job happy_world PNone PNone PNone PNone job_definition [])
  = Ok (PStr "aef-1700000000") /\
  snd (create_batch_job previous_world PNone PNone PNone PNone job_definition [])
  = snd (create_batch_job happy_world PNone PNone PNone PNone job_definition []).
Proof.
  assert (Hin : In (HttpPost happy_url happy_payload happy_headers)
                   (fst (create_batch_job happy_world PNone PNone PNone PNone
                           job_definition [])))
    by (vm_compute; do 2 right; left; reflexivity).
  assert (Hin' : In (HttpPost happy_url happy_payload happy_headers)
                    (fst (create_batch_job previous_world PNone PNone PNone PNone
                            job_definition [])))
    by (vm_compute; do 2 right; left; reflexivity).
  destruct (@batch_id_is_rounded_timestamp happy_world PNone PNone PNone PNone
              job_definition happy_url happy_payload happy_headers accepted
              Hin eq_refl eq_refl) as (Hid & _ & Hsame).
  split.
  - exact Hid.
  - exact (Hsame previous_world PNone PNone PNone PNone job_definition
             happy_url happy_payload happy_headers accepted Hin' eq_refl eq_refl
             eq_refl).
Defined.

(** C4, counterexample.  The claim as stated: two successful creation calls
    made within the same wall-clock second return the same batch id.  The
    readings 1700000000.2 and 1700000000.7 lie in the same second and give
    [aef-1700000000] and [aef-1700000001]. *)
Lemma same_second_batch_ids_differ :
  ~ (forall w w' wn jn qv wp ep u p h resp u' p' h' resp',
       In (HttpPost u p h) (fst (create_batch_job w wn jn qv wp ep [])) ->
       requests_post w u p h = Ok resp -> status_code resp = 200 ->
       In (HttpPost u' p' h') (fst (create_batch_job w' wn jn qv wp ep [])) ->
       requests_post w' u' p' h' = Ok resp' -> status_code resp' = 200 ->
       wall_clock_second w = wall_clock_second w' ->
       snd (create_batch_job w wn jn qv wp ep [])
       = snd (create_batch_job w' wn jn qv wp ep [])).
Proof.
  intros H.
  specialize (H happy_world late_world PNone PNone PNone PNone job_definition
                happy_url happy_payload happy_headers accepted
                late_url happy_payload happy_headers accepted).
  assert (Hin : In (HttpPost happy_url happy_payload happy_headers)
                   (fst (create_batch_job happy_world PNone PNone PNone PNone
                           job_definition [])))
    by (vm_compute; do 2 right; left; reflexivity).
  assert (Hin' : In (HttpPost late_url happy_payload happy_headers)
                    (fst (create_batch_job late_world PNone PNone PNone PNone
                            job_definition [])))
    by (vm_compute; do 2 right; left; reflexivity).
  specialize (H Hin eq_refl eq_refl Hin' eq_refl eq_refl eq_refl).
  vm_compute in H. discriminate H.
Qed.

(** C5.  In the payload a creation call posts, [environment_config] has a
    [peripherals_config] entry if and only if the [spark_history_server_cluster]
    parameter is non-empty, and then its [dataproc_cluster] is
    [projects/<project_id>/regions/<region>/clusters/<cluster>].  Non-empty
    is the truth test of the source; for a string it is being other than
    the empty string. *)
Theorem peripherals_config_iff_history_cluster w wn jn qv wp d u p h :
  In (HttpPost u p h) (fst (create_batch_job w wn jn qv wp (PDict d) [])) ->
  let project_id := dict_get d "dataproc_serverless_project_id" PNone in
  let region := dict_get d "dataproc_serverless_region" PNone in
  let cluster := dict_get d "spark_history_server_cluster" PNone in
  (lookup_path p ["environment_config"; "peripherals_config"] <> None
   <-> non_empty cluster) /\
  (non_empty cluster ->
   lookup_path p ["environment_config"; "peripherals_config";
                  "spark_history_server_config"; "dataproc_cluster"]
   = Some (PStr ("projects/" ++ str project_id ++ "/regions/" ++ str region
                 ++ "/clusters/" ++ str cluster))) /\
  (forall s, cluster = PStr s -> (non_empty cluster <-> s <> "")).
Proof.
  intros Hin project_id region cluster. unfold non_empty.
  destruct (create_batch_job_post _ _ _ _ _ _ _ _ _ Hin)
    as (d' & props & Hd & _ & _ & (Hper & Hpath) & _).
  injection Hd as <-. fold cluster in Hper, Hpath.
  rewrite Hper, Hpath.
  split; [|split].
  - destruct (py_bool cluster); split; congruence.
  - now intros ->.
  - intros s ->. apply py_bool_str.
Qed.

(** C5 at the sample job definition, whose history cluster is [history]. *)
Lemma peripherals_config_iff_history_cluster_witness :
  (lookup_path happy_payload ["environment_config"; "peripherals_config"] <> None
   <-> non_empty (PStr "history")) /\
  (non_empty (PStr "history") ->
   lookup_path happy_payload
     ["environment_config"; "peripherals_config";
      "spark_history_server_config"; "dataproc_cluster"]
   = Some (PStr "projects/acme-data/regions/us-central1/clusters/history")) /\
  (forall s, PStr "history" = PStr s -> (non_empty (PStr "history") <-> s <> "")).
Proof.
  apply (@peripherals_config_iff_history_cluster happy_world PNone PNone PNone PNone
           job_parameters
           happy_url happy_payload happy_headers).
  vm_compute. tauto.
Defined.

(** C6.  When the [spark_app_properties] parameter is a string that
    [json.loads] parses to [v], every payload the creation call posts holds
    [v] under [runtime_config.properties]; and the call does post one as
    soon as the credential refresh succeeds. *)
Theorem json_string_properties_are_parsed w wn jn qv wp d s v :
  dict_get d "spark_app_properties" PNone = PStr s ->
  json_loads w s = Ok v ->
  let log := fst (create_batch_job w wn jn qv wp (PDict d) []) in
  (forall u p h, In (HttpPost u p h) log ->
     lookup_path p ["runtime_config"; "properties"] = Some v) /\
  (forall token, credentials_refresh w = Ok token ->
     exists u p h, In (HttpPost u p h) log).
Proof.
  intros Hprop Hloads log. subst log. split.
  - intros u p h Hin.
    destruct (create_batch_job_post _ _ _ _ _ _ _ _ _ Hin)
      as (d' & props & Hd & Hparse & Hlook & _).
    injection Hd as <-. rewrite Hprop in Hparse. cbn [isinstance_str str] in Hparse.
    congruence.
  - intros token Htoken.
    unfold create_batch_job, bind, lift, get, ret, raise, refresh_token, post,
      print, perform.
    cbv beta iota zeta. rewrite Hprop. cbn [isinstance_str str].
    rewrite Hloads. cbv beta iota zeta. rewrite Htoken. cbv beta iota zeta.
    destruct (py_bool _); cbv beta iota zeta;
      match goal with
      | |- context [requests_post w ?u ?p ?h] =>
          exists u, p, h; destruct (requests_post w u p h) as [resp|e];
          [destruct (status_code resp =? 200)|];
          cbv beta iota zeta; cbn [fst];
          repeat (apply in_or_app; first [right; left; reflexivity | left])
      end.
Qed.

(** C6 at the sample job definition, whose properties string parses to the
    object with the one key [k]. *)
Lemma json_string_properties_are_parsed_witness :
  lookup_path happy_payload ["runtime_config"; "properties"]
  = Some (PDict [("k", PStr "v")]).
Proof.
  refine (proj1 (@json_string_properties_are_parsed happy_world
                   PNone PNone PNone PNone job_parameters properties_text
                   properties eq_refl eq_refl)
            happy_url happy_payload happy_headers _).
  vm_compute. do 2 right. left. reflexivity.
Defined.

(** C7, amended.  For every request whose [job_id] is present and truthy
    (a non-empty string), the dispatch is the status lookup and no [POST]
    is made; and when the [GET] is answered with HTTP 200 and a JSON object,
    the dispatch yields that object's [state] field as it is, which the
    handler returns when it is a string. *)
Theorem truthy_job_id_polls_status w request d job_id :
  get_json_silent w request = Ok (PDict d) ->
  dict_find d "job_id" = Some job_id ->
  py_bool job_id = true ->
  let log := fst (main w request []) in
  (forall wn jn qv wp ep,
     execute_job_or_get_status w job_id wn jn qv wp ep
     = get_job_status w job_id ep) /\
  (forall u p h, ~ In (HttpPost u p h) log) /\
  (forall u h resp body,
     In (HttpGet u h) log -> requests_get w u h = Ok resp ->
     status_code resp = 200 -> json resp = Ok (PDict body) ->
     snd (main w request [])
     = Ok (main_outcome (Ok (dict_get body "state" PNone))) /\
     (forall state, dict_find body "state" = Some (PStr state) ->
                    snd (main w request []) = Ok (PStr state))).
Proof.
  intros Hd Hid Htruthy log. subst log.
  apply dict_get_find in Hid.
  assert (Hget : forall u h resp body,
             In (HttpGet u h) (fst (main w request [])) ->
             requests_get w u h = Ok resp ->
             status_code resp = 200 -> json resp = Ok (PDict body) ->
             snd (main w request [])
             = Ok (main_outcome (Ok (dict_get body "state" PNone)))).
  { intros u h resp body Hin Hresp Hcode Hbody.
    destruct (main_get_event _ _ _ _ Hin) as (d' & ep & _ & _ & Hrun & ->).
    rewrite (get_job_status_get _ _ _ _ _ Hrun), Hresp, Hcode, Hbody.
    reflexivity. }
  split; [|split].
  - intros wn jn qv wp ep. unfold execute_job_or_get_status.
    now rewrite Htruthy.
  - intros u p h Hin.
    destruct (main_post_event _ _ _ _ _ Hin) as (d' & _ & Hd' & Hfalsy & _).
    rewrite Hd in Hd'. injection Hd' as <-. congruence.
  - intros u h resp body Hin Hresp Hcode Hbody. split.
    + now apply Hget with (u := u) (h := h) (resp := resp).
    + intros state Hstate.
      rewrite (Hget u h resp body Hin Hresp Hcode Hbody).
      now rewrite (dict_get_find _ _ _ Hstate).
Qed.

(** C7, the amended statement at the sample status request: the answer
    [RUNNING] is passed through. *)
Lemma truthy_job_id_polls_status_witness :
  snd (main happy_world (request_of status_body) []) = Ok (PStr "RUNNING").
Proof.
  refine (proj2 (proj2 (proj2
            (@truthy_job_id_polls_status happy_world
               (request_of status_body)
               (status_fields (PStr "aef-1700000000"))
               (PStr "aef-1700000000") eq_refl eq_refl eq_refl))
            status_url happy_headers running [("state", PStr "RUNNING")]
            _ eq_refl eq_refl eq_refl) "RUNNING" eq_refl).
  vm_compute. do 4 right. left. reflexivity.
Defined.

(** C7, counterexample.  The claim as stated: every request in which
    [job_id] is present is delegated to the status lookup rather than to
    job creation.  The sample request whose [job_id] is the empty string
    makes the handler post a new batch. *)
Lemma present_job_id_may_create :
  ~ (forall w request d job_id,
       get_json_silent w request = Ok (PDict d) ->
       dict_find d "job_id" = Some job_id ->
       forall u p h, ~ In (HttpPost u p h) (fst (main w request []))).
Proof.
  intros H.
  apply (H happy_world (request_of empty_job_id_body)
           (status_fields (PStr ""))
           (PStr "") eq_refl eq_refl happy_url happy_payload happy_headers).
  vm_compute. do 4 right. left. reflexivity.
Qed.

(** C8, amended.  For every bucket name without a slash, function name and
    job name such that [gs://] does not occur in
    [<bucket>/<function_name>/<job_name>.json], stripping the scheme from the
    synthesized path and splitting on [/] recovers the bucket and the key
    [<function_name>/<job_name>.json], and the loader downloads exactly that
    object. *)
Theorem loader_reads_synthesized_object w bucket function_name job_name :
  has_char "/" bucket = false ->
  str_in "gs://" (bucket ++ "/" ++ function_name ++ "/" ++ job_name ++ ".json")
  = false ->
  let key := function_name ++ "/" ++ job_name ++ ".json" in
  let parts := split (replace ("gs://" ++ bucket ++ "/" ++ key) "gs://" "") "/" in
  first_part parts = Ok bucket /\
  join "/" (tl parts) = key /\
  exists rest,
    fst (extract_params w (PStr bucket) (PStr job_name) (PStr function_name) [])
    = BlobDownload bucket key :: rest /\
    forall b o, ~ In (BlobDownload b o) rest.
Proof.
  intros Hslash Hscheme key parts.
  assert (Hparts : parts = bucket :: split key "/")
    by (apply synthesized_path_parts; assumption).
  assert (Hkey : join "/" (tl parts) = key)
    by (rewrite Hparts; apply join_split).
  split; [now rewrite Hparts | split; [exact Hkey|]].
  unfold extract_params. cbn [str]. fold key. fold parts.
  rewrite Hkey. rewrite Hparts.
  unfold bind, lift, first_part, try_except, download_as_bytes, perform, ret,
    print.
  cbv beta iota zeta.
  destruct (blob_download_as_bytes w bucket key) as [data|e1].
  - destruct (bytes_decode w data) as [text|e2].
    + destruct (json_loads w text) as [params|e3].
      * exists []. split; [reflexivity | intros b o []].
      * destruct (is_load_failure e3); eexists; (split; [reflexivity|]);
          intros b o Hin; in_cases Hin; discriminate Hin.
    + destruct (is_load_failure e2); eexists; (split; [reflexivity|]);
        intros b o Hin; in_cases Hin; discriminate Hin.
  - destruct (is_load_failure e1); eexists; (split; [reflexivity|]);
      intros b o Hin; in_cases Hin; discriminate Hin.
Qed.

(** C8, the amended statement at the sample bucket, function and job. *)
Lemma loader_reads_synthesized_object_witness :
  exists rest,
    fst (extract_params happy_world (PStr "acme-jobs") (PStr "etl")
           (PStr "executor") [])
    = BlobDownload "acme-jobs" "executor/etl.json" :: rest /\
    forall b o, ~ In (BlobDownload b o) rest.
Proof.
  exact (proj2 (proj2 (@loader_reads_synthesized_object happy_world
                         "acme-jobs" "executor" "etl" eq_refl eq_refl))).
Defined.

(** C8, counterexample.  The claim as stated asks only that the bucket name
    has no slash.  For the job name [gs://etl] the scheme is stripped inside
    the key as well: the loader downloads [executor/etl.json], not
    [executor/gs://etl.json]. *)
Lemma loader_strips_scheme_inside_names :
  ~ (forall w bucket function_name job_name,
       has_char "/" bucket = false ->
       exists rest,
         fst (extract_params w (PStr bucket) (PStr job_name)
                (PStr function_name) [])
         = BlobDownload bucket (function_name ++ "/" ++ job_name ++ ".json")
             :: rest).
Proof.
  intros H.
  destruct (H happy_world "acme-jobs" "executor" "gs://etl" eq_refl)
    as (rest & Hlog).
  vm_compute in Hlog. discriminate Hlog.
Qed.

(** C9.  A [job_id] that is present but is the empty string is falsy: a
    request that carries it and reaches the dispatch (its
    [workflow_properties] is an object or absent, and the parameter phase
    returned) is served by job creation.  The dispatch is
    [create_batch_job]; what the handler answers and what it does is what
    that call returns and does; no [GET] is made; and when the parameters
    are an object whose Spark properties parse (or need no parsing) and
    the credentials refresh, the [POST] is made. *)
Theorem empty_job_id_takes_creation_path w request d props ep :
  get_json_silent w request = Ok (PDict d) ->
  dict_find d "job_id" = Some (PStr "") ->
  dict_get d "workflow_properties" (PDict []) = PDict props ->
  let bucket := dict_get props "jobs_definitions_bucket" PNone in
  let load :=
    if py_bool bucket
    then extract_params w bucket (dict_get d "job_name" PNone) (function_name w) []
    else ([], Ok (PDict [])) in
  snd load = Ok ep ->
  let creation :=
    create_batch_job w
      (dict_get d "workflow_name" PNone) (dict_get d "job_name" PNone)
      (dict_get d "query_variables" PNone)
      (dict_get d "workflow_properties" PNone) ep in
  execute_job_or_get_status w
    (dict_get d "job_id" PNone) (dict_get d "workflow_name" PNone)
    (dict_get d "job_name" PNone) (dict_get d "query_variables" PNone)
    (dict_get d "workflow_properties" PNone) ep
  = creation /\
  snd (main w request []) = Ok (main_outcome (snd (creation []))) /\
  (exists line,
     fst (main w request [])
     = (Printed ("event:" ++ str (PDict d))
          :: fst load ++ fst (creation []) ++ [Printed line])%list) /\
  (forall u h, ~ In (HttpGet u h) (fst (main w request []))) /\
  (forall params parsed token,
     ep = PDict params ->
     (let properties := dict_get params "spark_app_properties" PNone in
      if isinstance_str properties then json_loads w (str properties)
      else Ok properties) = Ok parsed ->
     credentials_refresh w = Ok token ->
     exists u p h, In (HttpPost u p h) (fst (main w request []))).
Proof.
  intros Hd Hid Hprops bucket load Hload creation.
  pose proof (dict_get_find _ _ _ Hid) as Hfalsy.
  assert (Hdispatch :
    execute_job_or_get_status w
      (dict_get d "job_id" PNone) (dict_get d "workflow_name" PNone)
      (dict_get d "job_name" PNone) (dict_get d "query_variables" PNone)
      (dict_get d "workflow_properties" PNone) ep = creation).
  { unfold execute_job_or_get_status. now rewrite Hfalsy. }
  pose proof (main_object_run w request d props Hd Hprops) as Hrun.
  cbv zeta in Hrun. fold bucket in Hrun. fold load in Hrun.
  rewrite Hload, Hdispatch in Hrun. destruct Hrun as (Hout & line & Hlog).
  split; [exact Hdispatch|]. split; [exact Hout|].
  split; [now exists line|]. split.
  - intros u h Hin.
    destruct (main_get_event _ _ _ _ Hin) as (d' & _ & Hd' & Htruthy & _).
    rewrite Hd in Hd'. injection Hd' as <-.
    rewrite Hfalsy in Htruthy. discriminate Htruthy.
  - intros params parsed token -> Hparsed Htoken.
    destruct (create_batch_job_posts w
                (dict_get d "workflow_name" PNone) (dict_get d "job_name" PNone)
                (dict_get d "query_variables" PNone)
                (dict_get d "workflow_properties" PNone) params parsed token
                Hparsed Htoken)
      as (u & p & h & Hin).
    exists u, p, h. rewrite Hlog. right.
    apply in_or_app. right. apply in_or_app. left. exact Hin.
Qed.

(** C9 at the sample request whose [job_id] is the empty string: the batch
    is created. *)
Lemma empty_job_id_takes_creation_path_witness :
  snd (main happy_world (request_of empty_job_id_body) [])
  = Ok (PStr "aef-1700000000") /\
  exists u p h,
    In (HttpPost u p h) (fst (main happy_world (request_of empty_job_id_body) [])).
Proof.
  destruct (@empty_job_id_takes_creation_path happy_world
              (request_of empty_job_id_body) (status_fields (PStr ""))
              [("jobs_definitions_bucket", PStr "acme-jobs")]
              job_definition eq_refl eq_refl eq_refl eq_refl)
    as (_ & Hout & _ & _ & Hpost).
  split.
  - rewrite Hout. reflexivity.
  - exact (Hpost job_parameters properties "ya29.token" eq_refl eq_refl eq_refl).
Defined.



End Claims.

(* ================================================================== *)
(** * The shape of a call *)
(* ================================================================== *)

Module ShapeFacts.
Import Py Effects Env Main Notions Measures PyFacts RunFacts MainFacts CallFacts.

(** One step of a run read off the goal. *)
Ltac step_goal :=
  cbv beta iota zeta;
  match goal with
  | |- context [match ?x with _ => _ end] => destruct_innermost x
  end.

Ltac run_goal :=
  unfold create_batch_job, get_job_status, bind, lift, get, ret, raise,
    refresh_token, post, http_get, print, perform;
  repeat step_goal; cbv beta iota zeta; cbn [fst snd app].

Lemma create_batch_job_shape w wn jn qv wp ep :
  call_shape (fst (create_batch_job w wn jn qv wp ep [])).
Proof.
  unfold call_shape. run_goal;
    first [ now left
          | now (right; left)
          | right; right; do 3 eexists; repeat split; reflexivity ].
Qed.

Lemma get_job_status_shape w job_id ep :
  call_shape (fst (get_job_status w job_id ep [])).
Proof.
  unfold call_shape. run_goal;
    first [ now left
          | now (right; left)
          | right; right; do 3 eexists; repeat split; reflexivity ].
Qed.

(** The request a creation call sends, and the log around it. *)
Lemma create_batch_job_call w wn jn qv wp ep u p h :
  In (HttpPost u p h) (fst (create_batch_job w wn jn qv wp ep [])) ->
  exists d token fields rest,
    ep = PDict d /\
    credentials_refresh w = Ok token /\
    h = PDict [("Authorization", PStr ("Bearer " ++ token))] /\
    u = "https://dataproc.googleapis.com/v1/projects/"
        ++ str (dict_get d "dataproc_serverless_project_id" PNone)
        ++ "/locations/" ++ str (dict_get d "dataproc_serverless_region" PNone)
        ++ "/batches?batchId=" ++ "aef-"
        ++ str_of_int (int_round_timestamp (now_microseconds w)) /\
    p = PDict fields /\
    map fst fields = ["spark_batch"; "runtime_config"; "environment_config"] /\
    lookup_path p ["spark_batch"]
    = Some (PDict [("jar_file_uris",
                    PList [dict_get d "jar_file_location" PNone]);
                   ("main_class", dict_get d "spark_app_main_class" PNone);
                   ("args", dict_get d "spark_args" PNone)]) /\
    lookup_path p ["runtime_config"; "version"]
    = Some (dict_get d "dataproc_serverless_runtime_version" PNone) /\
    lookup_path p ["environment_config"; "execution_config"]
    = Some (PDict [("service_account",
                    dict_get d "dataproc_service_account" PNone);
                   ("subnetwork_uri",
                    PStr ("projects/"
                          ++ str (dict_get d "dataproc_serverless_project_id" PNone)
                          ++ "/" ++ str (dict_get d "subnetwork" PNone)))]) /\
    fst (create_batch_job w wn jn qv wp ep [])
    = CredentialsRefresh :: Printed (str p) :: HttpPost u p h :: rest /\
    forallb is_print rest = true /\
    rest = after_answer "CREATE" (requests_post w u p h).
Proof.
  intros Hin. run_in Hin; apply HttpPost_inj in Hin as (<- & <- & <-);
    cbv beta iota zeta in *; cbn [fst snd app];
    match goal with
    | Ht : credentials_refresh w = Ok ?token
      |- exists d' _ _ _, PDict ?d = PDict d' /\ _ =>
        exists d, token
    end;
    do 2 eexists; repeat split; try reflexivity;
    unfold after_answer;
    repeat match goal with
    | H : requests_post _ _ _ _ = _ |- _ => rewrite H
    | H : (status_code _ =? 200) = _ |- _ => rewrite H
    end; reflexivity.
Qed.

(** The request a status lookup sends, and the log around it. *)
Lemma get_job_status_call w job_id ep u h :
  In (HttpGet u h) (fst (get_job_status w job_id ep [])) ->
  exists d token rest,
    ep = PDict d /\
    credentials_refresh w = Ok token /\
    h = PDict [("Authorization", PStr ("Bearer " ++ token))] /\
    u = "https://dataproc.googleapis.com/v1/projects/"
        ++ str (dict_get d "dataproc_serverless_project_id" PNone)
        ++ "/locations/" ++ str (dict_get d "dataproc_serverless_region" PNone)
        ++ "/batches/" ++ str job_id /\
    fst (get_job_status w job_id ep [])
    = CredentialsRefresh :: Printed ("Url::::" ++ u) :: HttpGet u h :: rest /\
    forallb is_print rest = true /\
    rest = after_answer "GET" (requests_get w u h).
Proof.
  intros Hin. run_in Hin; apply HttpGet_inj in Hin as (<- & <-);
    cbv beta iota zeta in *; cbn [fst snd app];
    match goal with
    | Ht : credentials_refresh w = Ok ?token
      |- exists d' _ _, PDict ?d = PDict d' /\ _ =>
        exists d, token
    end;
    eexists; repeat split; try reflexivity;
    unfold after_answer;
    repeat match goal with
    | H : requests_get _ _ _ = _ |- _ => rewrite H
    | H : (status_code _ =? 200) = _ |- _ => rewrite H
    end; reflexivity.
Qed.

End ShapeFacts.

(* ================================================================== *)
(** * The parameter phase and the whole run *)
(* ================================================================== *)

Module LoadFacts.
Import Py Effects Env Main Notions Measures PyFacts RunFacts MainFacts CallFacts ShapeFacts.

(** ** The parameter loader *)

(** The first piece of a split holds no separator. *)
Lemma split_from_head (c : ascii) (cur s b : string) (rest : list string) :
  has_char c cur = false ->
  split_from (String c "") 0 cur s = b :: rest ->
  has_char c b = false.
Proof.
  revert cur. induction s as [|a s IH]; intros cur Hcur H.
  - simpl in H. injection H as <- _. exact Hcur.
  - rewrite split_from_cons, prefix_char in H.
    destruct (Ascii.eqb a c) eqn:E.
    + injection H as <- _. exact Hcur.
    + apply (IH (cur ++ String a "")); [|exact H].
      clear -Hcur E. induction cur as [|x cur IHc]; simpl in *.
      * now rewrite E.
      * apply orb_false_elim in Hcur as [-> Hc]. now rewrite IHc.
Qed.

(** A run of the loader: one download of the object the stripped path
    names, and the outcome of loading it with the three failures
    swallowed. *)
Lemma extract_params_run w b j f :
  let path := "gs://" ++ str b ++ "/" ++ str f ++ "/" ++ str j ++ ".json" in
  exists bucket pieces,
    split (replace path "gs://" "") "/" = bucket :: pieces /\
    extract_params w b j f []
    = let key := join "/" pieces in
      match load_blob w bucket key with
      | Ok params => ([BlobDownload bucket key], Ok params)
      | Raise e =>
          if is_load_failure e
          then ([BlobDownload bucket key;
                 Printed ("Error reading JSON file: " ++ exn_str e)],
                Ok PNone)
          else ([BlobDownload bucket key], Raise e)
      end.
Proof.
  intros path. unfold extract_params. fold path.
  destruct (split (replace path "gs://" "") "/") as [|bucket pieces] eqn:Hparts.
  - now apply split_from_nonempty in Hparts.
  - exists bucket, pieces. split; [reflexivity|].
    unfold bind, lift, first_part, try_except, download_as_bytes, perform, ret,
      print, load_blob.
    cbv beta iota zeta. cbn [tl].
    destruct (blob_download_as_bytes w bucket (join "/" pieces)) as [data|e1].
    + destruct (bytes_decode w data) as [text|e2].
      * destruct (json_loads w text) as [params|e3]; [reflexivity|].
        now destruct (is_load_failure e3).
      * now destruct (is_load_failure e2).
    + now destruct (is_load_failure e1).
Qed.

Lemma extract_params_shape w b j f :
  load_shape (fst (extract_params w b j f [])).
Proof.
  destruct (extract_params_run w b j f) as (bucket & pieces & _ & ->).
  cbv zeta. right. exists bucket, (join "/" pieces).
  destruct (load_blob _ _ _) as [params|e]; [|destruct (is_load_failure e)];
    eexists; split; reflexivity.
Qed.

End LoadFacts.

(* ================================================================== *)
(** * The log of the handler *)
(* ================================================================== *)

Module HandlerFacts.
Import Py Effects Env Main Notions Measures PyFacts RunFacts MainFacts CallFacts ShapeFacts LoadFacts.

(** ** Counting *)

Lemma count_app kind (l1 l2 : list event) :
  count kind (l1 ++ l2) = (count kind l1 + count kind l2)%nat.
Proof. unfold count. now rewrite filter_app, length_app. Qed.

Lemma count_cons kind (ev : event) (l : list event) :
  count kind (ev :: l) = ((if kind ev then 1 else 0) + count kind l)%nat.
Proof. unfold count. simpl. now destruct (kind ev). Qed.

Lemma count_prints kind (l : list event) :
  (forall line, kind (Printed line) = false) ->
  forallb is_print l = true -> count kind l = 0%nat.
Proof.
  intros Hkind. induction l as [|ev l IH]; intros H; [reflexivity|].
  simpl in H. apply andb_prop in H as [Hev Hl].
  rewrite count_cons, (IH Hl). destruct ev; try discriminate Hev.
  now rewrite Hkind.
Qed.

Lemma count_zero_not_in kind (l : list event) (ev : event) :
  count kind l = 0%nat -> kind ev = true -> ~ In ev l.
Proof.
  unfold count. intros Hc Hk Hin.
  assert (Hf : In ev (filter kind l)) by (apply filter_In; now split).
  destruct (filter kind l); [destruct Hf | discriminate Hc].
Qed.

(** ** Failing before the parameters are looked for *)

(** The field access that fails first on a body that is not an object, or
    on [workflow_properties] that is not one, once the body has been read
    and printed. *)
Lemma main_early_failure w request body culprit :
  get_json_silent w request = Ok body ->
  snd (print_event w body []) = Ok tt ->
  ((forall d, body <> PDict d) /\ culprit = body) \/
  (exists d, body = PDict d /\
             culprit = dict_get d "workflow_properties" (PDict []) /\
             forall props, culprit <> PDict props) ->
  main w request []
  = ([Printed ("event:" ++ str body);
      Printed ("Exception: " ++ exn_repr (no_attribute culprit "get"))],
     Ok (error_response (no_attribute culprit "get"))).
Proof.
  intros Hbody Hprint H. rewrite main_unfold, Hbody.
  pose proof (print_event_log w body []) as Hlog. rewrite Hprint in Hlog.
  destruct (print_event w body []) as [l0 [[]|e]];
    cbn [fst snd] in Hlog, Hprint; [subst l0 | discriminate Hprint].
  destruct H as [[Hno ->] | (d & -> & -> & Hprops)].
  - now rewrite main_try_not_dict.
  - unfold main_try, bind, lift, get.
    destruct (dict_get d "workflow_properties" (PDict [])) as [| | | | |props];
      try reflexivity.
    now elim (Hprops props).
Qed.

Lemma execute_shape w job_id wn jn qv wp ep :
  call_shape (fst (execute_job_or_get_status w job_id wn jn qv wp ep [])).
Proof.
  unfold execute_job_or_get_status. destruct (py_bool job_id).
  - apply get_job_status_shape.
  - apply create_batch_job_shape.
Qed.

(** A run of [main] that raises has done nothing: reading the body or
    printing it raised, before the guarded block. *)
Lemma main_raises w request e :
  snd (main w request []) = Raise e ->
  main w request [] = ([], Raise e) /\
  (get_json_silent w request = Raise e \/
   exists body,
     get_json_silent w request = Ok body /\
     snd (print_event w body []) = Raise e).
Proof.
  rewrite !main_unfold.
  destruct (get_json_silent w request) as [body|e0].
  - pose proof (print_event_log w body []) as Hlog.
    destruct (print_event w body []) as [l0 [[]|e1]] eqn:Hp;
      cbn [fst snd] in *.
    + destruct (main_try w body l0) as [l [v|e2]]; discriminate.
    + intros H. injection H as ->. subst l0. split; [reflexivity|].
      right. exists body. now rewrite Hp.
  - cbn [snd]. intros H. injection H as ->. split; [reflexivity | now left].
Qed.

(** Every run of the handler that prints the event: then the parameter
    phase, the call to the REST API, and prints.  A run that does not
    print the event does nothing. *)
Lemma main_log_shape w request :
  fst (main w request []) = [] \/
  exists body pre run post,
    get_json_silent w request = Ok body /\
    fst (main w request [])
    = (Printed ("event:" ++ str body) :: pre ++ run ++ post)%list /\
    load_shape pre /\ call_shape run /\ forallb is_print post = true.
Proof.
  destruct (get_json_silent w request) as [body|e] eqn:Hbody;
    [|left; now rewrite main_unfold, Hbody].
  destruct (snd (print_event w body [])) as [[]|e] eqn:Hprint.
  2:{ left. rewrite main_unfold, Hbody.
      pose proof (print_event_log w body []) as Hlog. rewrite Hprint in Hlog.
      destruct (print_event w body []) as [l0 [[]|e1]];
        cbn [fst snd] in *; [discriminate Hprint | exact Hlog]. }
  right. exists body.
  destruct body as [| | | | |d];
    try (match type of Hbody with
         | _ = Ok ?b =>
             exists [], [], [Printed ("Exception: " ++ exn_repr
                                       (no_attribute b "get"))];
             rewrite (main_early_failure w request b b Hbody Hprint)
               by (left; split; [intros ?; discriminate | reflexivity])
         end;
         repeat split; now left).
  destruct (dict_get d "workflow_properties" (PDict [])) as [| | | | |props] eqn:Hp.
  1-5: eexists [], [], [_];
       rewrite (main_early_failure w request (PDict d)
                  (dict_get d "workflow_properties" (PDict [])) Hbody Hprint)
         by (right; exists d; rewrite Hp;
             repeat split; intros ?; discriminate);
       repeat split; now left.
  pose proof (main_object_run w request d props Hbody Hp) as Hrun.
  cbv zeta in Hrun.
  set (load := if py_bool (dict_get props "jobs_definitions_bucket" PNone)
               then extract_params w _ _ _ [] else ([], Ok (PDict []))) in *.
  assert (Hload : load_shape (fst load)).
  { subst load. destruct (py_bool _); [apply extract_params_shape | now left]. }
  destruct (snd load) as [ep|e].
  - destruct Hrun as (_ & line & ->).
    eexists (fst load), _, [Printed line]. repeat split; try assumption.
    apply execute_shape.
  - rewrite Hrun. eexists (fst load), [], [_]. repeat split; try assumption.
    now left.
Qed.

End HandlerFacts.

(* ================================================================== *)
(** * How runs end *)
(* ================================================================== *)

Module ResultFacts.
Import Py Effects Env Main Notions Measures PyFacts RunFacts MainFacts CallFacts ShapeFacts LoadFacts HandlerFacts.

(** ** Decimal numerals *)

Lemma to_int_proper (n : Z) :
  Z.to_int n <> Decimal.Pos Decimal.Nil /\ Z.to_int n <> Decimal.Neg Decimal.Nil.
Proof.
  destruct n as [|p|p]; simpl; split; try discriminate;
    intros H; injection H as H; now apply Unsigned.to_uint_nonnil in H.
Qed.

Lemma str_of_int_inj (n m : Z) : str_of_int n = str_of_int m -> n = m.
Proof.
  unfold str_of_int. intros H. apply DecimalZ.to_int_inj.
  destruct (to_int_proper n) as [Hn1 Hn2], (to_int_proper m) as [Hm1 Hm2].
  pose proof (NilZero.isi _ Hn1 Hn2) as En.
  pose proof (NilZero.isi _ Hm1 Hm2) as Em.
  rewrite H in En. congruence.
Qed.

(** ** Rounding to the second *)

Lemma round_half_even_near (n d : Z) :
  0 < d -> Z.abs (2 * (d * round_half_even n d - n)) <= d.
Proof.
  intros Hd. unfold round_half_even.
  pose proof (Z.div_mod n d ltac:(lia)) as E.
  pose proof (Z.mod_pos_bound n d Hd) as B.
  destruct (2 * (n mod d) <? d) eqn:E1; [apply Z.ltb_lt in E1; lia|].
  apply Z.ltb_ge in E1.
  destruct (d <? 2 * (n mod d)) eqn:E2; [apply Z.ltb_lt in E2; lia|].
  apply Z.ltb_ge in E2.
  destruct (Z.even (n / d)); lia.
Qed.

Lemma round_half_even_bounds (n d : Z) :
  0 < d -> n / d <= round_half_even n d <= n / d + 1.
Proof.
  intros Hd. unfold round_half_even.
  destruct (2 * (n mod d) <? d); [lia|].
  destruct (d <? 2 * (n mod d)); [lia|].
  destruct (Z.even (n / d)); lia.
Qed.

Lemma round_half_even_mono (n m d : Z) :
  0 < d -> n <= m -> round_half_even n d <= round_half_even m d.
Proof.
  intros Hd Hnm.
  pose proof (Z.div_le_mono n m d Hd Hnm) as Hq.
  destruct (Z.eq_dec (n / d) (m / d)) as [Heq|Hne].
  - pose proof (Z.div_mod n d ltac:(lia)) as En.
    pose proof (Z.div_mod m d ltac:(lia)) as Em.
    assert (Hr : n mod d <= m mod d) by (rewrite Heq in En; lia).
    unfold round_half_even. rewrite Heq.
    destruct (2 * (n mod d) <? d) eqn:E1.
    + destruct (2 * (m mod d) <? d); [lia|].
      destruct (d <? 2 * (m mod d)); [lia|].
      destruct (Z.even (m / d)); lia.
    + apply Z.ltb_ge in E1.
      assert (E1' : (2 * (m mod d) <? d) = false) by (apply Z.ltb_ge; lia).
      rewrite E1'.
      destruct (d <? 2 * (n mod d)) eqn:E2.
      * apply Z.ltb_lt in E2.
        assert (E2' : (d <? 2 * (m mod d)) = true) by (apply Z.ltb_lt; lia).
        rewrite E2'. lia.
      * destruct (d <? 2 * (m mod d)); destruct (Z.even (m / d)); lia.
  - pose proof (round_half_even_bounds n d Hd).
    pose proof (round_half_even_bounds m d Hd). lia.
Qed.

Lemma round_half_even_apart (n m d : Z) :
  0 < d -> n + d < m -> round_half_even n d < round_half_even m d.
Proof.
  intros Hd Hnm.
  pose proof (round_half_even_near n d Hd).
  pose proof (round_half_even_near m d Hd).
  nia.
Qed.

(** ** How the calls end *)

(** A creation call that returns has posted, and returns the batch id. *)
Lemma create_batch_job_returns w wn jn qv wp ep v :
  snd (create_batch_job w wn jn qv wp ep []) = Ok v ->
  v = PStr ("aef-" ++ str_of_int (int_round_timestamp (now_microseconds w))).
Proof.
  intros H.
  unfold create_batch_job, bind, lift, get, ret, raise,
    refresh_token, post, http_get, print, perform in H.
  repeat step_in H; cbn [snd] in H; try discriminate H;
    injection H as <-; reflexivity.
Qed.

(** Parameters that are no object stop either call at its first line. *)
Lemma execute_non_object w job_id wn jn qv wp ep log :
  (forall d, ep <> PDict d) ->
  execute_job_or_get_status w job_id wn jn qv wp ep log
  = (log, Raise (no_attribute ep "get")).
Proof.
  intros H. unfold execute_job_or_get_status.
  destruct ep; try (destruct (py_bool job_id); reflexivity).
  now elim (H d).
Qed.

(** The dispatch does not look at the workflow name, the query variables
    or the workflow properties. *)
Lemma execute_unused w job_id wn jn qv wp wn' jn' qv' wp' ep :
  execute_job_or_get_status w job_id wn jn qv wp ep
  = execute_job_or_get_status w job_id wn' jn' qv' wp' ep.
Proof. reflexivity. Qed.

(** ** The shape of the logs *)

Lemma http_is_no_print (ev : event) : is_http ev = true -> is_print ev = false.
Proof. now destruct ev. Qed.

Lemma prints_hold_no_http (l : list event) (ev : event) :
  forallb is_print l = true -> is_http ev = true -> ~ In ev l.
Proof.
  intros Hl Hev Hin. rewrite forallb_forall in Hl.
  pose proof (Hl _ Hin) as Hp.
  rewrite (http_is_no_print _ Hev) in Hp. discriminate Hp.
Qed.

Lemma load_shape_no_http (pre : list event) (ev : event) :
  load_shape pre -> is_http ev = true -> ~ In ev pre.
Proof.
  intros [->|(b & k & rest & -> & Hrest)] Hev Hin; [destruct Hin|].
  destruct Hin as [<-|Hin]; [discriminate Hev|].
  exact (prints_hold_no_http _ _ Hrest Hev Hin).
Qed.

Lemma call_shape_http (run : list event) (ev : event) :
  call_shape run -> In ev run -> is_http ev = true ->
  exists line rest,
    run = CredentialsRefresh :: Printed line :: ev :: rest /\
    forallb is_print rest = true.
Proof.
  intros [->|[->|(line & call & rest & -> & Hcall & Hrest)]] Hin Hev.
  - destruct Hin.
  - destruct Hin as [<-|[]]. discriminate Hev.
  - destruct Hin as [<-|[<-|[<-|Hin]]]; try discriminate Hev.
    + now exists line, rest.
    + now elim (prints_hold_no_http _ _ Hrest Hev Hin).
Qed.

Lemma load_shape_counts (pre : list event) :
  load_shape pre ->
  (count is_download pre <= 1)%nat /\
  count is_refresh pre = 0%nat /\ count is_http pre = 0%nat.
Proof.
  intros [->|(b & k & rest & -> & Hrest)]; [repeat split; cbn; lia|].
  rewrite !count_cons, !count_prints by (assumption || reflexivity).
  cbn. repeat split; lia.
Qed.

Lemma call_shape_counts (run : list event) :
  call_shape run ->
  count is_download run = 0%nat /\
  (count is_refresh run <= 1)%nat /\ (count is_http run <= 1)%nat.
Proof.
  intros [->|[->|(line & call & rest & -> & Hcall & Hrest)]];
    [repeat split; cbn; lia | repeat split; cbn; lia |].
  rewrite !count_cons, !count_prints by (assumption || reflexivity).
  destruct call; try discriminate Hcall; cbn; repeat split; lia.
Qed.

(** ** The last line of a run *)

Lemma main_try_final_line w request_json l v :
  main_try w request_json [] = (l, Ok v) ->
  exists s before, v = PStr s /\ l = (before ++ [Printed (announcement s)])%list.
Proof.
  intros H. unfold main_try in H.
  do 8 (apply bind_ok in H; destruct H as (? & ? & _ & H); cbv beta in H).
  apply bind_ok in H. destruct H as (status & before & _ & H). cbv beta in H.
  apply bind_ok in H. destruct H as (running & l1 & Hs & H). cbv beta in H.
  apply bind_ok in H. destruct H as (? & l2 & Hp & H). cbv beta in H.
  unfold ret in H. injection H as <- <-.
  unfold lift, call_startswith in Hs.
  destruct status as [| | |s| |]; try discriminate Hs.
  injection Hs as <- <-. exists s, before. split; [reflexivity|].
  unfold announcement. cbn [str] in Hp.
  destruct (startswith s "aef-"); unfold print, perform in Hp;
    injection Hp as <-; reflexivity.
Qed.

(** A run of [main] that returns ends with a print that tells the answer:
    the announcement of the string returned, or the exception reported.
    A run that raises has printed nothing. *)
Lemma main_last_line w request :
  match snd (main w request []) with
  | Raise _ => fst (main w request []) = []
  | Ok answer =>
      exists before line,
        fst (main w request []) = (before ++ [Printed line])%list /\
        match answer with
        | PStr s => line = announcement s
        | _ =>
            exists message,
              lookup_path answer ["message"] = Some (PStr message) /\
              line = "Exception: " ++ message
        end
  end.
Proof.
  destruct (snd (main w request [])) as [answer|e] eqn:Hout.
  2:{ destruct (main_raises _ _ _ Hout) as [Hrun _]. now rewrite Hrun. }
  revert Hout. rewrite !main_unfold.
  destruct (get_json_silent w request) as [body|e0]; [|discriminate].
  pose proof (print_event_log w body []) as Hlog.
  destruct (print_event w body []) as [l0 [[]|e1]]; cbn [fst snd] in *;
    [|discriminate].
  subst l0.
  rewrite (framed_main_try w body ([] ++ [Printed ("event:" ++ str body)])%list).
  destruct (main_try w body []) as [l [v|e]] eqn:E; cbn [fst snd];
    intros H; injection H as <-.
  - destruct (main_try_final_line _ _ _ _ E) as (s & before & -> & ->).
    exists (Printed ("event:" ++ str body) :: before), (announcement s).
    split; reflexivity.
  - eexists _, _. split; [reflexivity|].
    cbn [error_response]. eexists. split; reflexivity.
Qed.

(** ** The token of a call *)

(** An HTTP call of a run was made with the token of a refresh that
    succeeded. *)
Lemma http_event_token w request ev :
  In ev (fst (main w request [])) -> is_http ev = true ->
  exists token,
    credentials_refresh w = Ok token /\ headers_of ev = Some (bearer token).
Proof.
  intros Hin Hev.
  destruct ev as [| | |u p h|u h]; try discriminate Hev.
  - destruct (main_post_event _ _ _ _ _ Hin) as (d & ep & _ & _ & Hrun & _).
    destruct (create_batch_job_call _ _ _ _ _ _ _ _ _ Hrun)
      as (d' & token & fields & rest & _ & Ht & Hh & _).
    exists token. now rewrite Hh.
  - destruct (main_get_event _ _ _ _ Hin) as (d & ep & _ & _ & Hrun & _).
    destruct (get_job_status_call _ _ _ _ _ Hrun)
      as (d' & token & rest & _ & Ht & Hh & _).
    exists token. now rewrite Hh.
Qed.

(** A refresh that fails ends the call. *)
Lemma create_batch_job_refresh_failure w wn jn qv wp ep e :
  credentials_refresh w = Raise e ->
  In CredentialsRefresh (fst (create_batch_job w wn jn qv wp ep [])) ->
  snd (create_batch_job w wn jn qv wp ep []) = Raise e.
Proof.
  intros He Hin.
  unfold create_batch_job, bind, lift, get, ret, raise,
    refresh_token, post, http_get, print, perform in Hin |- *.
  rewrite He in *.
  repeat step_in Hin; in_cases Hin; try discriminate Hin; reflexivity.
Qed.

Lemma get_job_status_refresh_failure w job_id ep e :
  credentials_refresh w = Raise e ->
  In CredentialsRefresh (fst (get_job_status w job_id ep [])) ->
  snd (get_job_status w job_id ep []) = Raise e.
Proof.
  intros He Hin.
  unfold get_job_status, bind, lift, get, ret, raise,
    refresh_token, post, http_get, print, perform in Hin |- *.
  rewrite He in *.
  repeat step_in Hin; in_cases Hin; try discriminate Hin; reflexivity.
Qed.

Lemma execute_refresh_failure w job_id wn jn qv wp ep e :
  credentials_refresh w = Raise e ->
  In CredentialsRefresh
     (fst (execute_job_or_get_status w job_id wn jn qv wp ep [])) ->
  snd (execute_job_or_get_status w job_id wn jn qv wp ep []) = Raise e.
Proof.
  unfold execute_job_or_get_status. destruct (py_bool job_id).
  - apply get_job_status_refresh_failure.
  - apply create_batch_job_refresh_failure.
Qed.

Lemma prints_hold_no_refresh (l : list event) :
  forallb is_print l = true -> ~ In CredentialsRefresh l.
Proof.
  intros Hl Hin. rewrite forallb_forall in Hl.
  discriminate (Hl _ Hin).
Qed.

Lemma load_shape_no_refresh (pre : list event) :
  load_shape pre -> ~ In CredentialsRefresh pre.
Proof.
  intros [->|(b & k & rest & -> & Hrest)] Hin; [destruct Hin|].
  destruct Hin as [Hin|Hin]; [discriminate Hin|].
  exact (prints_hold_no_refresh _ Hrest Hin).
Qed.

(** ** The address of the job definition *)

Lemma blob_address_parts b f j bucket pieces :
  split (replace ("gs://" ++ str b ++ "/" ++ str f ++ "/" ++ str j ++ ".json")
                 "gs://" "") "/" = bucket :: pieces ->
  blob_address b f j = (bucket, join "/" pieces).
Proof. unfold blob_address. cbv zeta. now intros ->. Qed.

(** The one download of the loader asks for that address. *)
Lemma extract_params_download w b j f :
  exists rest,
    fst (extract_params w b j f [])
    = BlobDownload (fst (blob_address b f j)) (snd (blob_address b f j)) :: rest /\
    forallb is_print rest = true.
Proof.
  destruct (extract_params_run w b j f) as (bucket & pieces & Hparts & ->).
  rewrite (blob_address_parts _ _ _ _ _ Hparts). cbv zeta. cbn [fst snd].
  destruct (load_blob _ _ _) as [params|e]; [|destruct (is_load_failure e)];
    eexists; split; reflexivity.
Qed.

(** A path that reads as a bucket without a slash and a key, neither
    holding the scheme, is addressed as that bucket and that key. *)
Lemma blob_address_split (bucket key : string) b f j :
  "gs://" ++ str b ++ "/" ++ str f ++ "/" ++ str j ++ ".json"
  = "gs://" ++ bucket ++ "/" ++ key ->
  has_char "/" bucket = false ->
  str_in "gs://" (bucket ++ "/" ++ key) = false ->
  blob_address b f j = (bucket, key).
Proof.
  intros Hpath Hslash Hscheme. unfold blob_address. cbv zeta.
  rewrite Hpath, (synthesized_path_parts _ _ Hslash Hscheme).
  cbn [hd tl]. now rewrite join_split.
Qed.

End ResultFacts.

(* ================================================================== *)
(** * Further properties of the program *)
(* ================================================================== *)

Module Properties.
Import Py Effects Env Main Notions Measures Scenarios MoreScenarios.
Import PyFacts RunFacts MainFacts CallFacts ShapeFacts LoadFacts HandlerFacts ResultFacts.

(** ** The creation call *)

(** X1.  The payload a creation call posts is an object with exactly the
    fields [spark_batch], [runtime_config] and [environment_config], in
    that order; [spark_batch] holds the jar as a one-element list, the main
    class and the arguments, [runtime_config.version] the runtime version,
    and [execution_config] the service account and the subnetwork as
    [projects/<project_id>/<subnetwork>].  Each value is the parameter of
    the job definition, [None] when the definition lacks it. *)
Theorem posted_payload_fields w wn jn qv wp ep u p h :
  In (HttpPost u p h) (fst (create_batch_job w wn jn qv wp ep [])) ->
  exists d fields,
    ep = PDict d /\ p = PDict fields /\
    map fst fields = ["spark_batch"; "runtime_config"; "environment_config"] /\
    lookup_path p ["spark_batch"]
    = Some (PDict [("jar_file_uris", PList [dict_get d "jar_file_location" PNone]);
                   ("main_class", dict_get d "spark_app_main_class" PNone);
                   ("args", dict_get d "spark_args" PNone)]) /\
    lookup_path p ["runtime_config"; "version"]
    = Some (dict_get d "dataproc_serverless_runtime_version" PNone) /\
    lookup_path p ["environment_config"; "execution_config"]
    = Some (PDict [("service_account", dict_get d "dataproc_service_account" PNone);
                   ("subnetwork_uri",
                    PStr ("projects/"
                          ++ str (dict_get d "dataproc_serverless_project_id" PNone)
                          ++ "/" ++ str (dict_get d "subnetwork" PNone)))]).
Proof.
  intros Hin.
  destruct (create_batch_job_call _ _ _ _ _ _ _ _ _ Hin)
    as (d & token & fields & rest & Hd & _ & _ & _ & Hp & Hk & H1 & H2 & H3 & _).
  exists d, fields. repeat split; assumption.
Qed.

(** X1 at the sample job definition. *)
Lemma posted_payload_fields_witness :
  exists fields,
    happy_payload = PDict fields /\
    map fst fields = ["spark_batch"; "runtime_config"; "environment_config"] /\
    lookup_path happy_payload ["spark_batch"]
    = Some (PDict [("jar_file_uris", PList [PStr "gs://acme-jars/etl.jar"]);
                   ("main_class", PStr "com.acme.Etl");
                   ("args", PList [PStr "--date"; PStr "today"])]) /\
    lookup_path happy_payload ["environment_config"; "execution_config"]
    = Some (PDict [("service_account", PStr "etl@acme-data.iam");
                   ("subnetwork_uri",
                    PStr "projects/acme-data/regions/us-central1/subnetworks/default")]).
Proof.
  assert (Hin : In (HttpPost happy_url happy_payload happy_headers)
                   (fst (create_batch_job happy_world PNone PNone PNone PNone
                           job_definition [])))
    by (vm_compute; do 2 right; left; reflexivity).
  destruct (@posted_payload_fields happy_world PNone PNone PNone PNone
              job_definition happy_url happy_payload happy_headers Hin)
    as (d & fields & Hd & Hp & Hk & H1 & _ & H3).
  injection Hd as <-. exists fields. repeat split; assumption.
Defined.

(** X2.  The URL a creation call posts to is the batches collection of the
    project and region of the job definition, with the batch id
    [aef-<timestamp>] as [batchId]; when the call returns, it returns that
    same id. *)
Theorem post_url_names_returned_batch w wn jn qv wp ep u p h :
  In (HttpPost u p h) (fst (create_batch_job w wn jn qv wp ep [])) ->
  exists d,
    ep = PDict d /\
    let batch_id :=
      "aef-" ++ str_of_int (int_round_timestamp (now_microseconds w)) in
    u = "https://dataproc.googleapis.com/v1/projects/"
        ++ str (dict_get d "dataproc_serverless_project_id" PNone)
        ++ "/locations/" ++ str (dict_get d "dataproc_serverless_region" PNone)
        ++ "/batches?batchId=" ++ batch_id /\
    forall v, snd (create_batch_job w wn jn qv wp ep []) = Ok v ->
              v = PStr batch_id.
Proof.
  intros Hin.
  destruct (create_batch_job_call _ _ _ _ _ _ _ _ _ Hin)
    as (d & token & fields & rest & Hd & _ & _ & Hu & _).
  exists d. split; [exact Hd|]. cbv zeta. split; [exact Hu|].
  intros v Hv. exact (create_batch_job_returns _ _ _ _ _ _ _ Hv).
Qed.

(** X2 at the sample job definition. *)
Lemma post_url_names_returned_batch_witness :
  happy_url
  = "https://dataproc.googleapis.com/v1/projects/acme-data/locations/us-central1/batches?batchId=aef-1700000000"
  /\ snd (create_batch_job happy_world PNone PNone PNone PNone job_definition [])
     = Ok (PStr "aef-1700000000").
Proof.
  assert (Hin : In (HttpPost happy_url happy_payload happy_headers)
                   (fst (create_batch_job happy_world PNone PNone PNone PNone
                           job_definition [])))
    by (vm_compute; do 2 right; left; reflexivity).
  destruct (@post_url_names_returned_batch happy_world PNone PNone PNone PNone
              job_definition happy_url happy_payload happy_headers Hin)
    as (d & Hd & Hu & Hv).
  injection Hd as <-. split; [exact Hu|].
  pose proof (Hv (PStr "aef-1700000000") eq_refl) as E.
  reflexivity.
Defined.

(** X3.  Every call to the REST API in a run of the handler comes right
    after a refresh of the credentials that succeeded and one printed
    line, and carries the header [Authorization: Bearer <token>] for the
    token of that refresh; nothing before them in the run is an HTTP
    call. *)
Theorem http_call_follows_refresh w request ev :
  In ev (fst (main w request [])) -> is_http ev = true ->
  exists token before line after,
    credentials_refresh w = Ok token /\
    headers_of ev = Some (bearer token) /\
    fst (main w request [])
    = (before ++ CredentialsRefresh :: Printed line :: ev :: after)%list /\
    count is_http before = 0%nat /\ count is_refresh before = 0%nat.
Proof.
  intros Hin Hev.
  destruct (http_event_token _ _ _ Hin Hev) as (token & Ht & Hh).
  destruct (main_log_shape w request)
    as [Hnone|(body & pre & run & post & _ & Hlog & Hpre & Hrun & Hpost)];
    [rewrite Hnone in Hin; destruct Hin|].
  rewrite Hlog in Hin |- *.
  assert (Hin' : In ev run).
  { destruct Hin as [<-|Hin]; [discriminate Hev|].
    apply in_app_or in Hin as [Hin|Hin];
      [now elim (load_shape_no_http _ _ Hpre Hev Hin)|].
    apply in_app_or in Hin as [Hin|Hin]; [exact Hin|].
    now elim (prints_hold_no_http _ _ Hpost Hev Hin). }
  destruct (call_shape_http _ _ Hrun Hin' Hev) as (line & rest & -> & Hrest).
  exists token, (Printed ("event:" ++ str body) :: pre),
    line, (rest ++ post)%list.
  destruct (load_shape_counts _ Hpre) as (_ & Hr & Hc).
  split; [exact Ht|]. split; [exact Hh|]. split; [|split].
  - reflexivity.
  - now rewrite count_cons.
  - now rewrite count_cons.
Qed.

(** X3 for the creation request of the sample world. *)
Lemma http_call_follows_refresh_witness :
  exists before line after,
    fst (main happy_world (request_of creation_body) [])
    = (before ++ CredentialsRefresh :: Printed line
              :: HttpPost happy_url happy_payload happy_headers :: after)%list /\
    count is_http before = 0%nat.
Proof.
  assert (Hin : In (HttpPost happy_url happy_payload happy_headers)
                   (fst (main happy_world (request_of creation_body) [])))
    by (vm_compute; do 4 right; left; reflexivity).
  destruct (@http_call_follows_refresh happy_world (request_of creation_body)
              (HttpPost happy_url happy_payload happy_headers) Hin eq_refl)
    as (token & before & line & after & _ & _ & Hlog & Hc & _).
  now exists before, line, after.
Defined.

(** X4.  A run of the handler downloads at most one blob, refreshes the
    credentials at most once and makes at most one call to the REST API:
    nothing is retried. *)
Theorem one_call_per_invocation w request :
  let log := fst (main w request []) in
  (count is_download log <= 1)%nat /\
  (count is_refresh log <= 1)%nat /\
  (count is_http log <= 1)%nat.
Proof.
  cbv zeta.
  destruct (main_log_shape w request)
    as [->|(body & pre & run & post & _ & Hlog & Hpre & Hrun & Hpost)];
    [cbn; lia|].
  rewrite Hlog.
  destruct (load_shape_counts _ Hpre) as (Hd1 & Hr1 & Hc1).
  destruct (call_shape_counts _ Hrun) as (Hd2 & Hr2 & Hc2).
  rewrite !count_cons, !count_app, !(count_prints _ post)
    by (assumption || reflexivity).
  cbn [is_download is_refresh is_http is_post is_get orb]. lia.
Qed.

(** X5.  A request without [jobs_definitions_bucket], or with an empty or
    null one, reads no blob: the dispatch runs on empty parameters. *)
Theorem no_bucket_no_download w request d props :
  get_json_silent w request = Ok (PDict d) ->
  dict_get d "workflow_properties" (PDict []) = PDict props ->
  py_bool (dict_get props "jobs_definitions_bucket" PNone) = false ->
  count is_download (fst (main w request [])) = 0%nat /\
  snd (main w request [])
  = Ok (main_outcome
          (snd (execute_job_or_get_status w
                  (dict_get d "job_id" PNone) (dict_get d "workflow_name" PNone)
                  (dict_get d "job_name" PNone) (dict_get d "query_variables" PNone)
                  (dict_get d "workflow_properties" PNone) (PDict []) []))).
Proof.
  intros Hd Hprops Hbucket.
  pose proof (main_object_run w request d props Hd Hprops) as Hrun.
  cbv zeta in Hrun. rewrite Hbucket in Hrun. cbn [fst snd] in Hrun.
  destruct Hrun as (Hout & line & Hlog). split; [|exact Hout].
  rewrite Hlog. cbn [app].
  destruct (call_shape_counts _ (execute_shape w
              (dict_get d "job_id" PNone) (dict_get d "workflow_name" PNone)
              (dict_get d "job_name" PNone) (dict_get d "query_variables" PNone)
              (dict_get d "workflow_properties" PNone) (PDict []))) as (Hc & _).
  now rewrite count_cons, count_app, Hc.
Qed.

(** X5 for a request without a bucket: the batch is created from an empty
    job definition. *)
Lemma no_bucket_no_download_witness :
  count is_download
    (fst (main (further_world sample_blobs)
               (request_of (dumps bucketless_request)) [])) = 0%nat /\
  snd (main (further_world sample_blobs)
            (request_of (dumps bucketless_request)) [])
  = Ok (PStr "aef-1700000000").
Proof.
  destruct (@no_bucket_no_download (further_world sample_blobs)
              (request_of (dumps bucketless_request))
              [("workflow_name", PStr "nightly"); ("job_name", PStr "etl")] []
              eq_refl eq_refl eq_refl) as [Hcount Hout].
  split; [exact Hcount | reflexivity].
Defined.

(** ** The parameter loader *)

(** X6.  The loader makes one download, of the object its path parses
    to.  When the object is there and decodes and parses, the loader
    returns the parsed value; when one of the three steps fails with
    [NotFound], [JSONDecodeError] or [UnicodeDecodeError], it prints
    [Error reading JSON file: <message>] and returns [None]; any other
    failure (a refused access, say) is raised to the caller. *)
Theorem loader_outcomes w b j f :
  let bucket := fst (blob_address b f j) in
  let key := snd (blob_address b f j) in
  (forall params,
     load_blob w bucket key = Ok params ->
     extract_params w b j f [] = ([BlobDownload bucket key], Ok params)) /\
  (forall e,
     load_blob w bucket key = Raise e -> is_load_failure e = true ->
     extract_params w b j f []
     = ([BlobDownload bucket key;
         Printed ("Error reading JSON file: " ++ exn_str e)], Ok PNone)) /\
  (forall e,
     load_blob w bucket key = Raise e -> is_load_failure e = false ->
     extract_params w b j f [] = ([BlobDownload bucket key], Raise e)).
Proof.
  destruct (extract_params_run w b j f) as (bucket & pieces & Hparts & Hrun).
  rewrite (blob_address_parts _ _ _ _ _ Hparts). cbv zeta in *. cbn [fst snd].
  rewrite Hrun. repeat split.
  - now intros params ->.
  - now intros e -> ->.
  - now intros e -> ->.
Qed.

(** X6 at a missing object and at a refused access. *)
Lemma loader_outcomes_witness :
  extract_params missing_blob_world (PStr "acme-jobs") (PStr "etl")
                 (PStr "executor") []
  = ([BlobDownload "acme-jobs" "executor/etl.json";
      Printed "Error reading JSON file: 404 GET https://storage.googleapis.com/: No such object"],
     Ok PNone) /\
  extract_params locked_blob_world (PStr "acme-jobs") (PStr "etl")
                 (PStr "executor") []
  = ([BlobDownload "acme-jobs" "executor/etl.json"], Raise forbidden).
Proof.
  split.
  - exact (proj1 (proj2 (@loader_outcomes missing_blob_world (PStr "acme-jobs")
                           (PStr "etl") (PStr "executor")))
             not_found eq_refl eq_refl).
  - exact (proj2 (proj2 (@loader_outcomes locked_blob_world (PStr "acme-jobs")
                           (PStr "etl") (PStr "executor")))
             forbidden eq_refl eq_refl).
Defined.

(** X7.  A bucket setting with a folder, [<bucket>/<folder>], reads from
    the bucket [<bucket>] the object
    [<folder>/<function_name>/<job_name>.json]: only the text before the
    first slash names the bucket.  The names are such that the scheme
    [gs://] does not occur in the path. *)
Theorem bucket_folder_joins_object_key w (bucket folder : string) j f :
  has_char "/" bucket = false ->
  str_in "gs://"
    (bucket ++ "/" ++ folder ++ "/" ++ str f ++ "/" ++ str j ++ ".json") = false ->
  exists rest,
    fst (extract_params w (PStr (bucket ++ "/" ++ folder)) j f [])
    = BlobDownload bucket (folder ++ "/" ++ str f ++ "/" ++ str j ++ ".json")
        :: rest.
Proof.
  intros Hslash Hscheme.
  destruct (extract_params_download w (PStr (bucket ++ "/" ++ folder)) j f)
    as (rest & Hlog & _).
  exists rest. rewrite Hlog.
  rewrite (blob_address_split bucket
             (folder ++ "/" ++ str f ++ "/" ++ str j ++ ".json"));
    [reflexivity | | exact Hslash | exact Hscheme].
  cbn [str]. now rewrite !append_assoc.
Qed.

(** X7 for the setting [acme-jobs/defs]. *)
Lemma bucket_folder_joins_object_key_witness :
  exists rest,
    fst (extract_params happy_world (PStr "acme-jobs/defs") (PStr "etl")
                        (PStr "executor") [])
    = BlobDownload "acme-jobs" "defs/executor/etl.json" :: rest.
Proof.
  exact (@bucket_folder_joins_object_key happy_world "acme-jobs" "defs"
           (PStr "etl") (PStr "executor") eq_refl eq_refl).
Defined.

(** X8.  Whatever the three names are, the loader finds a bucket to ask
    ([parts[0]] never fails), the bucket name it passes to the blob store
    holds no slash, and bucket and object name are the stripped path cut
    at its first slash. *)
Theorem loader_bucket_has_no_slash w b j f :
  let stripped :=
    replace ("gs://" ++ str b ++ "/" ++ str f ++ "/" ++ str j ++ ".json")
            "gs://" "" in
  exists bucket key rest,
    fst (extract_params w b j f []) = BlobDownload bucket key :: rest /\
    forallb is_print rest = true /\
    has_char "/" bucket = false /\
    ((stripped = bucket /\ key = "") \/ stripped = bucket ++ "/" ++ key).
Proof.
  intros stripped.
  destruct (extract_params_run w b j f) as (bucket & pieces & Hparts & Hrun).
  fold stripped in Hparts.
  destruct (extract_params_download w b j f) as (rest & Hlog & Hrest).
  rewrite (blob_address_parts _ _ _ _ _ Hparts) in Hlog. cbn [fst snd] in Hlog.
  exists bucket, (join "/" pieces), rest.
  split; [exact Hlog|]. split; [exact Hrest|]. split.
  - exact (split_from_head "/" "" stripped bucket pieces eq_refl Hparts).
  - pose proof (join_split "/" stripped) as Hjoin.
    change (split stripped (String "/" "")) with (split stripped "/") in Hjoin.
    rewrite Hparts in Hjoin. unfold join in *.
    destruct pieces as [|p pieces].
    + left. split; [symmetry; exact Hjoin | reflexivity].
    + right. rewrite concat_cons in Hjoin by discriminate.
      symmetry. exact Hjoin.
Qed.

(** ** Failures on the way to the REST API *)

(** X9.  Once the body has been read and printed, a body that is not a
    JSON object ([None] for a missing or unparseable body, a list, a
    number, a string), or an object whose [workflow_properties] is present
    but is not an object (a null, say), fails at the first [.get] on it:
    the handler prints the event and the exception and answers with the
    [AttributeError] object that names the type, having read no blob,
    refreshed no credentials and called no API. *)
Theorem non_object_request_fails_early w request body culprit :
  get_json_silent w request = Ok body ->
  snd (print_event w body []) = Ok tt ->
  ((forall d, body <> PDict d) /\ culprit = body) \/
  (exists d, body = PDict d /\
             culprit = dict_get d "workflow_properties" (PDict []) /\
             forall props, culprit <> PDict props) ->
  let message :=
    "'" ++ type_name culprit ++ "' object has no attribute 'get'" in
  main w request []
  = ([Printed ("event:" ++ str body);
      Printed ("Exception: AttributeError(" ++ repr_str message ++ ")")],
     Ok (PDict [("error", PStr "AttributeError");
                ("message", PStr ("AttributeError(" ++ repr_str message ++ ")"))])).
Proof.
  intros Hbody Hprint H message.
  exact (main_early_failure w request body culprit Hbody Hprint H).
Qed.

(** X9 for a body that is a list and for null [workflow_properties]. *)
Lemma non_object_request_fails_early_witness :
  snd (main (further_world sample_blobs) (request_of (dumps list_request)) [])
  = Ok (error_response
          (exn_of_message AttributeError "'list' object has no attribute 'get'"))
  /\
  snd (main (further_world sample_blobs)
            (request_of (dumps null_properties_request)) [])
  = Ok (error_response
          (exn_of_message AttributeError
             "'NoneType' object has no attribute 'get'")).
Proof.
  split.
  - rewrite (@non_object_request_fails_early (further_world sample_blobs)
               (request_of (dumps list_request)) list_request list_request
               eq_refl eq_refl).
    + reflexivity.
    + left. split; [intros d; discriminate | reflexivity].
  - rewrite (@non_object_request_fails_early (further_world sample_blobs)
               (request_of (dumps null_properties_request))
               null_properties_request PNone eq_refl eq_refl).
    + reflexivity.
    + right. exists [("job_name", PStr "etl"); ("workflow_properties", PNone)].
      split; [reflexivity|]. split; [reflexivity | intros props; discriminate].
Defined.

(** X10.  Parameters that loaded as something other than an object (the
    [None] of a swallowed failure, or a job definition that is a JSON
    list, string or number) stop the dispatch at its first [.get]: the
    handler answers with the [AttributeError] object that names their
    type, without refreshing the credentials or calling the API. *)
Theorem non_object_parameters_abort w request d props ep :
  get_json_silent w request = Ok (PDict d) ->
  dict_get d "workflow_properties" (PDict []) = PDict props ->
  py_bool (dict_get props "jobs_definitions_bucket" PNone) = true ->
  snd (extract_params w (dict_get props "jobs_definitions_bucket" PNone)
         (dict_get d "job_name" PNone) (function_name w) []) = Ok ep ->
  (forall params, ep <> PDict params) ->
  let log := fst (main w request []) in
  snd (main w request []) = Ok (error_response (no_attribute ep "get")) /\
  count is_refresh log = 0%nat /\ count is_http log = 0%nat.
Proof.
  intros Hd Hprops Hbucket Hload Hep.
  pose proof (main_object_run w request d props Hd Hprops) as Hrun.
  cbv zeta in Hrun. rewrite Hbucket, Hload in Hrun.
  rewrite (execute_non_object _ _ _ _ _ _ _ [] Hep) in Hrun.
  cbn [fst snd main_outcome] in Hrun.
  destruct Hrun as (Hout & line & Hlog). cbv zeta.
  split; [exact Hout|]. rewrite Hlog.
  destruct (load_shape_counts _ (extract_params_shape w
              (dict_get props "jobs_definitions_bucket" PNone)
              (dict_get d "job_name" PNone) (function_name w)))
    as (_ & Hr & Hc).
  rewrite !count_cons, !count_app, Hr, Hc. split; reflexivity.
Qed.

(** X10 for a job definition that is a JSON list. *)
Lemma non_object_parameters_abort_witness :
  snd (main (further_world list_bucket) (request_of creation_body) [])
  = Ok (error_response
          (exn_of_message AttributeError "'list' object has no attribute 'get'"))
  /\ count is_http
       (fst (main (further_world list_bucket) (request_of creation_body) []))
     = 0%nat.
Proof.
  destruct (@non_object_parameters_abort (further_world list_bucket)
              (request_of creation_body)
              [("workflow_name", PStr "nightly"); ("job_name", PStr "etl");
               ("workflow_properties",
                PDict [("jobs_definitions_bucket", PStr "acme-jobs")])]
              [("jobs_definitions_bucket", PStr "acme-jobs")]
              list_definition eq_refl eq_refl eq_refl eq_refl)
    as (Hout & _ & Hc).
  - intros params. discriminate.
  - split; [exact Hout | exact Hc].
Defined.

(** X11.  A creation whose [spark_app_properties] is a string that
    [json.loads] rejects fails with that error before the credentials are
    refreshed: nothing is posted, and the handler answers with the error
    object of the parse error. *)
Theorem unparsable_properties_stop_creation w request d props params s e :
  get_json_silent w request = Ok (PDict d) ->
  dict_get d "workflow_properties" (PDict []) = PDict props ->
  py_bool (dict_get d "job_id" PNone) = false ->
  snd (if py_bool (dict_get props "jobs_definitions_bucket" PNone)
       then extract_params w (dict_get props "jobs_definitions_bucket" PNone)
              (dict_get d "job_name" PNone) (function_name w) []
       else ([], Ok (PDict []))) = Ok (PDict params) ->
  dict_get params "spark_app_properties" PNone = PStr s ->
  json_loads w s = Raise e ->
  let log := fst (main w request []) in
  snd (main w request []) = Ok (error_response e) /\
  count is_refresh log = 0%nat /\ count is_http log = 0%nat.
Proof.
  intros Hd Hprops Hid Hload Hs He.
  pose proof (main_object_run w request d props Hd Hprops) as Hrun.
  cbv zeta in Hrun.
  set (load := if py_bool (dict_get props "jobs_definitions_bucket" PNone)
               then extract_params w _ _ _ [] else ([], Ok (PDict []))) in *.
  assert (Hshape : load_shape (fst load)).
  { subst load.
    destruct (py_bool (dict_get props "jobs_definitions_bucket" PNone));
      [apply extract_params_shape | now left]. }
  rewrite Hload in Hrun.
  assert (Hcall : forall wn jn qv wp,
            execute_job_or_get_status w (dict_get d "job_id" PNone) wn jn qv wp
              (PDict params) [] = ([], Raise e)).
  { intros. unfold execute_job_or_get_status. rewrite Hid.
    unfold create_batch_job, bind, lift, get, ret. cbv beta iota zeta.
    rewrite Hs. cbn [isinstance_str str]. rewrite He. reflexivity. }
  rewrite Hcall in Hrun. cbn [fst snd main_outcome] in Hrun.
  destruct Hrun as (Hout & line & Hlog). cbv zeta.
  split; [exact Hout|]. rewrite Hlog.
  destruct (load_shape_counts _ Hshape) as (_ & Hr & Hc).
  rewrite !count_cons, !count_app, Hr, Hc. split; reflexivity.
Qed.

(** X11 for a job definition whose properties are the text [k=v]. *)
Lemma unparsable_properties_stop_creation_witness :
  snd (main (further_world broken_bucket) (request_of creation_body) [])
  = Ok (error_response decode_error) /\
  count is_refresh
    (fst (main (further_world broken_bucket) (request_of creation_body) []))
  = 0%nat.
Proof.
  destruct (@unparsable_properties_stop_creation (further_world broken_bucket)
              (request_of creation_body)
              [("workflow_name", PStr "nightly"); ("job_name", PStr "etl");
               ("workflow_properties",
                PDict [("jobs_definitions_bucket", PStr "acme-jobs")])]
              [("jobs_definitions_bucket", PStr "acme-jobs")]
              [("dataproc_serverless_project_id", PStr "acme-data");
               ("spark_app_properties", PStr "k=v")]
              "k=v" decode_error
              eq_refl eq_refl eq_refl eq_refl eq_refl eq_refl)
    as (Hout & Hr & _).
  split; [exact Hout | exact Hr].
Defined.

(** X12.  When the refresh of the credentials fails, no call to the REST
    API is made, and a run that got as far as the refresh answers with
    the error object of that failure. *)
Theorem refresh_failure_makes_no_call w request e :
  credentials_refresh w = Raise e ->
  let log := fst (main w request []) in
  count is_http log = 0%nat /\
  (In CredentialsRefresh log -> snd (main w request []) = Ok (error_response e)).
Proof.
  intros He. cbv zeta. split.
  - destruct (main_log_shape w request)
      as [->|(body & pre & run & post & _ & Hlog & Hpre & Hrun & Hpost)];
      [reflexivity|].
    destruct (load_shape_counts _ Hpre) as (_ & _ & Hc).
    rewrite Hlog, count_cons, !count_app, Hc,
      (count_prints is_http post) by (assumption || reflexivity).
    destruct Hrun as [->|[->|(line & call & rest & -> & Hcall & Hrest)]];
      try reflexivity.
    exfalso.
    destruct (http_event_token w request call) as (token & Ht & _);
      [|exact Hcall|congruence].
    rewrite Hlog. right. apply in_or_app. right. apply in_or_app. left.
    do 2 right. left. reflexivity.
  - intros Hin.
    destruct (get_json_silent w request) as [[| | | | |d]|e0] eqn:Hd;
      try (destruct (main_not_object w request) as [Hnone|(body & _ & Hrun)];
           [ rewrite Hd; intros ?; discriminate
           | rewrite Hnone in Hin; destruct Hin
           | rewrite Hrun in Hin; exfalso; in_cases Hin; discriminate Hin ]).
    destruct (dict_get d "workflow_properties" (PDict []))
      as [| | | | |props] eqn:Hp;
      try (rewrite (main_early_failure w request (PDict d)
                      (dict_get d "workflow_properties" (PDict [])) Hd eq_refl)
             in Hin
             by (right; exists d; rewrite Hp;
                 repeat split; intros ?; discriminate);
           exfalso; in_cases Hin; discriminate Hin).
    pose proof (main_object_run w request d props Hd Hp) as Hrun.
    cbv zeta in Hrun.
    set (load := if py_bool (dict_get props "jobs_definitions_bucket" PNone)
                 then extract_params w _ _ _ [] else ([], Ok (PDict []))) in *.
    assert (Hshape : load_shape (fst load)).
    { subst load. destruct (py_bool _); [apply extract_params_shape | now left]. }
    destruct (snd load) as [ep|e'].
    + destruct Hrun as (Hout & line & Hlog). rewrite Hout, Hlog in *.
      destruct Hin as [Hin|Hin]; [discriminate Hin|].
      apply in_app_or in Hin as [Hin|Hin];
        [now elim (load_shape_no_refresh _ Hshape Hin)|].
      apply in_app_or in Hin as [Hin|Hin];
        [|destruct Hin as [Hin|[]]; discriminate Hin].
      now rewrite (execute_refresh_failure _ _ _ _ _ _ _ _ He Hin).
    + exfalso. rewrite Hrun in Hin. cbn [fst] in Hin.
      destruct Hin as [Hin|Hin]; [discriminate Hin|].
      apply in_app_or in Hin as [Hin|Hin];
        [now elim (load_shape_no_refresh _ Hshape Hin)|].
      destruct Hin as [Hin|[]]; discriminate Hin.
Qed.

(** X12 for the creation request under credentials that cannot be
    refreshed. *)
Lemma refresh_failure_makes_no_call_witness :
  count is_http (fst (main expired_world (request_of creation_body) [])) = 0%nat /\
  snd (main expired_world (request_of creation_body) [])
  = Ok (PDict [("error", PStr "RefreshError");
               ("message", PStr "RefreshError('invalid_grant')")]).
Proof.
  destruct (@refresh_failure_makes_no_call expired_world
              (request_of creation_body) refresh_error eq_refl) as [Hc Hout].
  split; [exact Hc|]. apply Hout.
  vm_compute. do 2 right. left. reflexivity.
Defined.

(** X13.  A call to the REST API that raises instead of answering (no
    connection, a timeout) is reported like every other failure: the
    handler answers with the error object of what [requests] raised. *)
Theorem transport_failure_is_reported w request e :
  let log := fst (main w request []) in
  (forall u p h,
     In (HttpPost u p h) log -> requests_post w u p h = Raise e ->
     snd (main w request []) = Ok (error_response e)) /\
  (forall u h,
     In (HttpGet u h) log -> requests_get w u h = Raise e ->
     snd (main w request []) = Ok (error_response e)).
Proof.
  cbv zeta. split.
  - intros u p h Hin Hraise.
    destruct (main_post_event _ _ _ _ _ Hin) as (d & ep & _ & _ & Hrun & Hout).
    destruct (create_batch_job_post _ _ _ _ _ _ _ _ _ Hrun)
      as (d' & props & _ & _ & _ & _ & Hsnd).
    now rewrite Hout, Hsnd, Hraise.
  - intros u h Hin Hraise.
    destruct (main_get_event _ _ _ _ Hin) as (d & ep & _ & _ & Hrun & Hout).
    now rewrite Hout, (get_job_status_get _ _ _ _ _ Hrun), Hraise.
Qed.

(** X13 for the creation request when the API cannot be reached. *)
Lemma transport_failure_is_reported_witness :
  snd (main offline_world (request_of creation_body) [])
  = Ok (PDict [("error", PStr "ConnectionError");
               ("message", PStr "ConnectionError('Max retries exceeded')")]).
Proof.
  refine (proj1 (@transport_failure_is_reported offline_world
                   (request_of creation_body) connection_error)
            happy_url happy_payload happy_headers _ eq_refl).
  vm_compute. do 4 right. left. reflexivity.
Defined.

(** ** The status lookup *)

(** X14.  The status lookup requests
    [.../projects/<project>/locations/<region>/batches/<job_id>], the job
    id written as [str] writes it, for the project and region of the job
    definition ([None] where the definition lacks them), and prints that
    URL after [Url::::] just before the request. *)
Theorem status_url_names_job_id w job_id ep u h :
  In (HttpGet u h) (fst (get_job_status w job_id ep [])) ->
  exists d rest,
    ep = PDict d /\
    u = "https://dataproc.googleapis.com/v1/projects/"
        ++ str (dict_get d "dataproc_serverless_project_id" PNone)
        ++ "/locations/" ++ str (dict_get d "dataproc_serverless_region" PNone)
        ++ "/batches/" ++ str job_id /\
    fst (get_job_status w job_id ep [])
    = CredentialsRefresh :: Printed ("Url::::" ++ u) :: HttpGet u h :: rest.
Proof.
  intros Hin.
  destruct (get_job_status_call _ _ _ _ _ Hin)
    as (d & token & rest & Hd & _ & _ & Hu & Hlog & _).
  now exists d, rest.
Qed.

(** X14 for the job [aef-1700000000] of the sample job definition. *)
Lemma status_url_names_job_id_witness :
  status_url
  = "https://dataproc.googleapis.com/v1/projects/acme-data/locations/us-central1/batches/aef-1700000000".
Proof.
  assert (Hin : In (HttpGet status_url happy_headers)
                   (fst (get_job_status happy_world (PStr "aef-1700000000")
                           job_definition [])))
    by (vm_compute; do 2 right; left; reflexivity).
  destruct (@status_url_names_job_id happy_world (PStr "aef-1700000000")
              job_definition status_url happy_headers Hin)
    as (d & rest & Hd & Hu & _).
  injection Hd as <-. exact Hu.
Defined.

(** X15.  What the handler answers when the status request comes back
    with HTTP 200 but not with a state to return: a body that does not
    parse raises what [response.json()] raised; a body that is not an
    object, an object without [state] (the lookup then returns [None]),
    or a [state] that is not a string, ends in the [AttributeError]
    object that names the type. *)
Theorem status_answer_without_state w request u h resp :
  In (HttpGet u h) (fst (main w request [])) ->
  requests_get w u h = Ok resp -> status_code resp = 200 ->
  match json resp with
  | Raise e => snd (main w request []) = Ok (error_response e)
  | Ok (PDict body) =>
      match dict_get body "state" PNone with
      | PStr s => snd (main w request []) = Ok (PStr s)
      | state =>
          snd (main w request [])
          = Ok (error_response (no_attribute state "startswith"))
      end
  | Ok body =>
      snd (main w request []) = Ok (error_response (no_attribute body "get"))
  end.
Proof.
  intros Hin Hresp Hcode.
  destruct (main_get_event _ _ _ _ Hin) as (d & ep & _ & _ & Hrun & Hout).
  rewrite Hout, (get_job_status_get _ _ _ _ _ Hrun), Hresp, Hcode.
  cbn [Z.eqb Pos.eqb].
  destruct (json resp) as [[| | | | |body]|e]; try reflexivity.
  cbn [get main_outcome].
  destruct (dict_get body "state" PNone); reflexivity.
Qed.

(** X15 for a status answer that is the empty object. *)
Lemma status_answer_without_state_witness :
  snd (main stateless_world (request_of status_body) [])
  = Ok (error_response
          (exn_of_message AttributeError
             "'NoneType' object has no attribute 'startswith'")).
Proof.
  refine (@status_answer_without_state stateless_world (request_of status_body)
            status_url happy_headers accepted _ eq_refl eq_refl).
  vm_compute. do 4 right. left. reflexivity.
Defined.

(** ** The dispatch *)

(** X16.  Which call a run makes follows the truth value of [job_id]: a
    [POST] is made only when [job_id] is absent or falsy (null, the empty
    string, 0, false, an empty list or object), a [GET] only when it is
    truthy. *)
Theorem call_kind_follows_job_id w request :
  let log := fst (main w request []) in
  (forall u p h,
     In (HttpPost u p h) log ->
     exists d, get_json_silent w request = Ok (PDict d) /\
               py_bool (dict_get d "job_id" PNone) = false) /\
  (forall u h,
     In (HttpGet u h) log ->
     exists d, get_json_silent w request = Ok (PDict d) /\
               py_bool (dict_get d "job_id" PNone) = true).
Proof.
  cbv zeta. split.
  - intros u p h Hin.
    destruct (main_post_event _ _ _ _ _ Hin) as (d & ep & Hd & Hid & _).
    now exists d.
  - intros u h Hin.
    destruct (main_get_event _ _ _ _ Hin) as (d & ep & Hd & Hid & _).
    now exists d.
Qed.

(** X16 for the status request of the sample world. *)
Lemma call_kind_follows_job_id_witness :
  exists d,
    get_json_silent happy_world (request_of status_body) = Ok (PDict d) /\
    py_bool (dict_get d "job_id" PNone) = true.
Proof.
  refine (proj2 (@call_kind_follows_job_id happy_world (request_of status_body))
            status_url happy_headers _).
  vm_compute. do 4 right. left. reflexivity.
Defined.

(** X17.  The handler reads [workflow_name] and [query_variables] and
    passes them on, but nothing depends on them: two requests that agree
    on [job_id], [job_name] and [workflow_properties] get the same answer
    and cause the same events after the print of the request. *)
Theorem unused_request_fields w request1 request2 d1 d2 :
  get_json_silent w request1 = Ok (PDict d1) ->
  get_json_silent w request2 = Ok (PDict d2) ->
  dict_find d1 "job_id" = dict_find d2 "job_id" ->
  dict_find d1 "job_name" = dict_find d2 "job_name" ->
  dict_find d1 "workflow_properties" = dict_find d2 "workflow_properties" ->
  snd (main w request1 []) = snd (main w request2 []) /\
  tl (fst (main w request1 [])) = tl (fst (main w request2 [])).
Proof.
  intros H1 H2 Hid Hjob Hprops.
  assert (Htry : main_try w (PDict d1) [] = main_try w (PDict d2) []).
  { unfold main_try, bind, lift, get, dict_get. cbv beta iota zeta.
    rewrite Hid, Hjob, Hprops.
    reflexivity. }
  rewrite (main_object _ _ _ _ H1), (main_object _ _ _ _ H2).
  rewrite (framed_main_try w (PDict d1)), (framed_main_try w (PDict d2)), Htry.
  destruct (main_try w (PDict d2) []) as [l [v|e]]; cbn [fst snd app tl];
    split; reflexivity.
Qed.

(** X17 for the creation request under another workflow name and with
    query variables. *)
Lemma unused_request_fields_witness :
  snd (main (further_world sample_blobs) (request_of creation_body) [])
  = snd (main (further_world sample_blobs)
              (request_of (dumps relabelled_request)) []).
Proof.
  exact (proj1 (@unused_request_fields (further_world sample_blobs)
                  (request_of creation_body)
                  (request_of (dumps relabelled_request))
                  [("workflow_name", PStr "nightly"); ("job_name", PStr "etl");
                   ("workflow_properties",
                    PDict [("jobs_definitions_bucket", PStr "acme-jobs")])]
                  [("workflow_name", PStr "weekly"); ("job_name", PStr "etl");
                   ("query_variables", PDict [("day", PStr "monday")]);
                   ("workflow_properties",
                    PDict [("jobs_definitions_bucket", PStr "acme-jobs")])]
                  eq_refl eq_refl eq_refl eq_refl eq_refl)).
Defined.

(** ** The batch id *)

(** X18.  For clock readings from the epoch to below 2^33 seconds, where a
    double tells microseconds apart: two creation calls that return give
    the same batch id exactly when their readings round to the same
    second, and readings more than one second apart never do. *)
Theorem batch_ids_differ_across_seconds
        w1 wn1 jn1 qv1 wp1 ep1 v1 w2 wn2 jn2 qv2 wp2 ep2 v2 :
  within_double_precision (now_microseconds w1) ->
  within_double_precision (now_microseconds w2) ->
  snd (create_batch_job w1 wn1 jn1 qv1 wp1 ep1 []) = Ok v1 ->
  snd (create_batch_job w2 wn2 jn2 qv2 wp2 ep2 []) = Ok v2 ->
  (v1 = v2 <->
   int_round_timestamp (now_microseconds w1)
   = int_round_timestamp (now_microseconds w2)) /\
  (now_microseconds w1 + 1000000 < now_microseconds w2 -> v1 <> v2).
Proof.
  intros _ _ H1 H2.
  apply create_batch_job_returns in H1, H2. subst v1 v2.
  assert (Hiff : PStr ("aef-" ++ str_of_int (int_round_timestamp (now_microseconds w1)))
                 = PStr ("aef-" ++ str_of_int (int_round_timestamp (now_microseconds w2)))
                 <-> int_round_timestamp (now_microseconds w1)
                     = int_round_timestamp (now_microseconds w2)).
  { split.
    - intros H. injection H as H. now apply str_of_int_inj.
    - now intros ->. }
  split; [exact Hiff|].
  intros Hapart Heq. apply Hiff in Heq.
  pose proof (round_half_even_apart (now_microseconds w1) (now_microseconds w2)
                1000000 eq_refl Hapart) as Hlt.
  unfold int_round_timestamp in Heq. lia.
Qed.

(** X18 for the readings 1700000000.2 and 1700000000.7 of one wall-clock
    second, which round to different seconds. *)
Lemma batch_ids_differ_across_seconds_witness :
  PStr "aef-1700000000" = PStr "aef-1700000001" <->
  int_round_timestamp early_clock = int_round_timestamp late_clock.
Proof.
  assert (Hearly : within_double_precision early_clock)
    by (unfold within_double_precision, early_clock; lia).
  assert (Hlate : within_double_precision late_clock)
    by (unfold within_double_precision, late_clock; lia).
  exact (proj1 (@batch_ids_differ_across_seconds
                  happy_world PNone PNone PNone PNone job_definition
                  (PStr "aef-1700000000")
                  late_world PNone PNone PNone PNone job_definition
                  (PStr "aef-1700000001") Hearly Hlate eq_refl eq_refl)).
Defined.

(** X19.  For clock readings (in microseconds) from the epoch to below
    2^33 seconds, the timestamp of a batch id is the whole second nearest
    to the reading, the even one when the reading lies half-way, and it
    never goes back when the clock goes on. *)
Theorem timestamp_is_nearest_second (curr_dt : Z) :
  within_double_precision curr_dt ->
  let timestamp := int_round_timestamp curr_dt in
  Z.abs (1000000 * timestamp - curr_dt) <= 500000 /\
  (Z.abs (1000000 * timestamp - curr_dt) = 500000 -> Z.even timestamp = true) /\
  (forall later,
     within_double_precision later -> curr_dt <= later ->
     timestamp <= int_round_timestamp later).
Proof.
  intros _. cbv zeta. unfold int_round_timestamp. split; [|split].
  - pose proof (round_half_even_near curr_dt 1000000 eq_refl). lia.
  - unfold round_half_even.
    pose proof (Z.div_mod curr_dt 1000000 ltac:(lia)) as E.
    pose proof (Z.mod_pos_bound curr_dt 1000000 eq_refl) as B.
    destruct (2 * (curr_dt mod 1000000) <? 1000000) eqn:E1;
      [apply Z.ltb_lt in E1; lia|].
    destruct (1000000 <? 2 * (curr_dt mod 1000000)) eqn:E2;
      [apply Z.ltb_lt in E2; apply Z.ltb_ge in E1; lia|].
    destruct (Z.even (curr_dt / 1000000)) eqn:E3; intros _; [exact E3|].
    change (curr_dt / 1000000 + 1) with (Z.succ (curr_dt / 1000000)).
    now rewrite Z.even_succ, <- Z.negb_even, E3.
  - intros later _ Hle. now apply round_half_even_mono.
Qed.

(** X19 at the sample readings. *)
Lemma timestamp_is_nearest_second_witness :
  int_round_timestamp early_clock <= int_round_timestamp late_clock.
Proof.
  assert (Hearly : within_double_precision early_clock)
    by (unfold within_double_precision, early_clock; lia).
  assert (Hlate : within_double_precision late_clock)
    by (unfold within_double_precision, late_clock; lia).
  refine (proj2 (proj2 (@timestamp_is_nearest_second early_clock Hearly))
            late_clock Hlate _).
  vm_compute. discriminate.
Defined.

(** ** What the handler says and answers *)

(** X20.  A run of the handler that returns ends with a print that tells
    its answer: for a string, [Running Job, track it with Job ID: <s>]
    when the string starts with [aef-] (also when it is a state the status
    lookup returned) and [Call finished with status: <s>] otherwise; for
    an error object, [Exception: ] followed by its [message].  The handler
    raises only what reading the body raised (a failure of the parser
    that is no [ValueError]) or what printing a body that is a string
    raised, both before the guarded block, and then it has printed and
    done nothing. *)
Theorem last_line_reports_result w request :
  match snd (main w request []) with
  | Raise e =>
      fst (main w request []) = [] /\
      (get_json_silent w request = Raise e \/
       exists body,
         get_json_silent w request = Ok body /\
         isinstance_str body = true /\
         stdout_write w ("event:" ++ str body) = Raise e)
  | Ok answer =>
      exists before line,
        fst (main w request []) = (before ++ [Printed line])%list /\
        match answer with
        | PStr s => line = announcement s
        | _ =>
            exists message,
              lookup_path answer ["message"] = Some (PStr message) /\
              line = "Exception: " ++ message
        end
  end.
Proof.
  pose proof (main_last_line w request) as Hlast.
  destruct (snd (main w request [])) as [answer|e] eqn:Hout; [exact Hlast|].
  split; [exact Hlast|].
  destruct (main_raises _ _ _ Hout) as (_ & [Hread|(body & Hbody & Hprint)]);
    [now left|].
  right. exists body. split; [exact Hbody|].
  unfold print_event, print_raw, print, perform in Hprint. cbv zeta in Hprint.
  destruct (isinstance_str body); [|discriminate Hprint].
  split; [reflexivity|].
  destruct (stdout_write w ("event:" ++ str body)) as [[]|e1];
    [discriminate Hprint | exact Hprint].
Qed.

(** X20 for a body that is a string with a lone surrogate, on a standard
    output that encodes strictly. *)
Lemma last_line_reports_result_witness :
  main strict_world (request_of surrogate_body) [] = ([], Raise encode_error).
Proof.
  pose proof (@last_line_reports_result strict_world
                (request_of surrogate_body)) as H.
  change (snd (main strict_world (request_of surrogate_body) []))
    with (@Raise pyval encode_error) in H.
  destruct H as [Hlog _].
  rewrite (surjective_pairing (main strict_world (request_of surrogate_body) [])).
  rewrite Hlog. reflexivity.
Defined.

(** X21.  For a bucket setting that is a non-empty name without a slash,
    the first thing the handler does after printing the request is to
    download [<function_name>/<job_name>.json] from that bucket, where the
    function name is the value of [K_SERVICE]; an unset [K_SERVICE] or an
    absent [job_name] is written [None].  The names are such that the
    scheme [gs://] does not occur in the path. *)
Theorem handler_reads_definition_object w request d props (bucket : string) :
  get_json_silent w request = Ok (PDict d) ->
  dict_get d "workflow_properties" (PDict []) = PDict props ->
  dict_get props "jobs_definitions_bucket" PNone = PStr bucket ->
  bucket <> "" -> has_char "/" bucket = false ->
  let key :=
    str (function_name w) ++ "/" ++ str (dict_get d "job_name" PNone)
    ++ ".json" in
  str_in "gs://" (bucket ++ "/" ++ key) = false ->
  exists rest,
    fst (main w request [])
    = Printed ("event:" ++ str (PDict d)) :: BlobDownload bucket key :: rest.
Proof.
  intros Hd Hprops Hbucket Hne Hslash key Hscheme.
  pose proof (main_object_run w request d props Hd Hprops) as Hrun.
  cbv zeta in Hrun. rewrite Hbucket in Hrun.
  rewrite (proj2 (py_bool_str bucket) Hne) in Hrun.
  destruct (extract_params_download w (PStr bucket) (dict_get d "job_name" PNone)
              (function_name w)) as (rest & Hlog & _).
  rewrite (blob_address_split bucket key (PStr bucket) (function_name w)
             (dict_get d "job_name" PNone) eq_refl Hslash Hscheme) in Hlog.
  cbn [fst snd] in Hlog. rewrite Hlog in Hrun.
  destruct (snd (extract_params w (PStr bucket) (dict_get d "job_name" PNone)
                   (function_name w) [])) as [ep|e].
  - destruct Hrun as (_ & line & ->). eexists. reflexivity.
  - rewrite Hrun. eexists. reflexivity.
Qed.

(** X21 for the creation request of the sample world. *)
Lemma handler_reads_definition_object_witness :
  exists rest,
    fst (main happy_world (request_of creation_body) [])
    = Printed ("event:" ++ str creation_request)
        :: BlobDownload "acme-jobs" "executor/etl.json" :: rest.
Proof.
  refine (@handler_reads_definition_object happy_world (request_of creation_body)
            [("workflow_name", PStr "nightly"); ("job_name", PStr "etl");
             ("workflow_properties",
              PDict [("jobs_definitions_bucket", PStr "acme-jobs")])]
            [("jobs_definitions_bucket", PStr "acme-jobs")]
            "acme-jobs" eq_refl eq_refl eq_refl _ eq_refl eq_refl).
  discriminate.
Defined.

(** X22.  When the API answers the [POST] of a run with HTTP 200, the
    handler returns the batch id [aef-<timestamp>] as a string, and the
    last line it prints is [Running Job, track it with Job ID: ] followed
    by that id. *)
Theorem accepted_creation_returns_batch_id w request u p h resp :
  In (HttpPost u p h) (fst (main w request [])) ->
  requests_post w u p h = Ok resp -> status_code resp = 200 ->
  let batch_id :=
    "aef-" ++ str_of_int (int_round_timestamp (now_microseconds w)) in
  snd (main w request []) = Ok (PStr batch_id) /\
  exists before,
    fst (main w request [])
    = (before ++ [Printed ("Running Job, track it with Job ID: " ++ batch_id)])%list.
Proof.
  intros Hin Hresp Hcode batch_id.
  destruct (main_post_event _ _ _ _ _ Hin) as (d & ep & _ & _ & Hrun & Hout).
  destruct (create_batch_job_post _ _ _ _ _ _ _ _ _ Hrun)
    as (d' & props & _ & _ & _ & _ & Hsnd).
  rewrite Hresp, Hcode in Hsnd. cbn [Z.eqb Pos.eqb] in Hsnd.
  rewrite Hsnd in Hout. cbn [main_outcome call_startswith] in Hout.
  fold batch_id in Hout. split; [exact Hout|].
  pose proof (main_last_line w request) as Hlast. rewrite Hout in Hlast.
  destruct Hlast as (before & line & Hlog & Hline).
  exists before. rewrite Hlog, Hline.
  unfold announcement, startswith, batch_id. now rewrite prefix_app.
Qed.

(** X22 for the creation request of the sample world. *)
Lemma accepted_creation_returns_batch_id_witness :
  snd (main happy_world (request_of creation_body) [])
  = Ok (PStr "aef-1700000000").
Proof.
  refine (proj1 (@accepted_creation_returns_batch_id happy_world
                   (request_of creation_body)
                   happy_url happy_payload happy_headers accepted _
                   eq_refl eq_refl)).
  vm_compute. do 4 right. left. reflexivity.
Defined.

(** X23.  What a call that reaches the REST API does, in order: it
    refreshes the credentials, prints the payload as Python writes the
    object (creation) or the URL after [Url::::] (lookup), sends the
    request, and then prints [response::<Response [200]>] on HTTP 200, or
    the failure line with the status code followed by the response body
    on any other status, or nothing when the request itself raised. *)
Theorem call_trace w :
  (forall wn jn qv wp ep u p h,
     In (HttpPost u p h) (fst (create_batch_job w wn jn qv wp ep [])) ->
     fst (create_batch_job w wn jn qv wp ep [])
     = CredentialsRefresh :: Printed (str p) :: HttpPost u p h
         :: after_answer "CREATE" (requests_post w u p h)) /\
  (forall job_id ep u h,
     In (HttpGet u h) (fst (get_job_status w job_id ep [])) ->
     fst (get_job_status w job_id ep [])
     = CredentialsRefresh :: Printed ("Url::::" ++ u) :: HttpGet u h
         :: after_answer "GET" (requests_get w u h)).
Proof.
  split.
  - intros wn jn qv wp ep u p h Hin.
    destruct (create_batch_job_call _ _ _ _ _ _ _ _ _ Hin)
      as (d & token & fields & rest & _ & _ & _ & _ & _ & _ & _ & _ & _
          & Hlog & _ & Hrest).
    now rewrite Hlog, Hrest.
  - intros job_id ep u h Hin.
    destruct (get_job_status_call _ _ _ _ _ Hin)
      as (d & token & rest & _ & _ & _ & _ & Hlog & _ & Hrest).
    now rewrite Hlog, Hrest.
Qed.

(** X23 for a creation the API rejects with HTTP 404. *)
Lemma call_trace_witness :
  fst (create_batch_job failing_api_world PNone PNone PNone PNone
         job_definition [])
  = [CredentialsRefresh; Printed (str happy_payload);
     HttpPost happy_url happy_payload happy_headers;
     Printed "Dataproc API CREATE request failed. Status code:404";
     Printed "batch quota exhausted"].
Proof.
  refine (proj1 (@call_trace failing_api_world)
            PNone PNone PNone PNone job_definition
            happy_url happy_payload happy_headers _).
  vm_compute. do 2 right. left. reflexivity.
Defined.

End Properties.
